(** * Bright Data tools for a Mastra agent: tool registry, tool execution
      and agent assembly

    A shallow embedding of [src/mastra/tools/web-tools.ts] and
    [src/mastra/agents/web-agent.ts].

    - JavaScript strings are sequences of UTF-16 code units ([list N]).
    - Provider calls and client construction are recorded in an event
      trace threaded through a small state-and-exception monad.
    - The data-provider SDK, with its constructor that can throw, zod's
      URL check and the length zod measures, and [toLowerCase] are
      parameters of the development. *)

From stdpp Require Import gmap list strings.
From Stdlib Require Import NArith.

Set Default Proof Using "Type".
Set Warnings "-register-all".
Local Open Scope N_scope.

(** ** JavaScript strings *)

Module Js.

(** A string is its sequence of UTF-16 code units. *)
Abbreviation jsstring := (list N).

(** An ASCII literal of the source, as code units. *)
Definition lit (s : string) : jsstring :=
  map Ascii.N_of_ascii (String.list_ascii_of_string s).

(** [WhiteSpace] and [LineTerminator] of ECMA-262: the code units
    [String.prototype.trim] strips. All of them are in the BMP. *)
Definition isWhiteSpace (c : N) : bool :=
  (c =? 9) || (c =? 10) || (c =? 11) || (c =? 12) || (c =? 13) || (c =? 32)
  || (c =? 160) || (c =? 5760) || ((8192 <=? c) && (c <=? 8202))
  || (c =? 8232) || (c =? 8233) || (c =? 8239) || (c =? 8287)
  || (c =? 12288) || (c =? 65279).

Fixpoint trimStart (s : jsstring) : jsstring :=
  match s with
  | [] => []
  | c :: rest => if isWhiteSpace c then trimStart rest else s
  end.

Definition trimEnd (s : jsstring) : jsstring := rev (trimStart (rev s)).

(** [String.prototype.trim] *)
Definition trim (s : jsstring) : jsstring := trimEnd (trimStart s).

Fixpoint startsWith (s search : jsstring) {struct search} : bool :=
  match search, s with
  | [], _ => true
  | _ :: _, [] => false
  | a :: search', b :: s' => (a =? b) && startsWith s' search'
  end.

(** [String.prototype.includes] *)
Fixpoint includes (s search : jsstring) : bool :=
  startsWith s search
  || match s with
     | [] => false
     | _ :: s' => includes s' search
     end.

(** [Array.prototype.join] on an array of strings. *)
Fixpoint join (sep : jsstring) (parts : list jsstring) : jsstring :=
  match parts with
  | [] => []
  | [p] => p
  | p :: rest => p ++ sep ++ join sep rest
  end.

(** ** JavaScript values

    The data values a provider can hand back. A Number is carried by the
    text [Number::toString] gives for it, which is all this program ever
    does with one. Functions, symbols, BigInts, boxed primitives and
    objects with a [toJSON] method are outside the model. *)
Inductive JsValue : Type :=
| JsUndefined
| JsNull
| JsBool (b : bool)
| JsNumber (repr : jsstring)
| JsString (s : jsstring)
| JsArray (elements : list JsValue)
| JsObject (properties : list (jsstring * JsValue)).

(** [typeof v === 'string'] *)
Definition typeof_string (v : JsValue) : bool :=
  match v with JsString _ => true | _ => false end.

Definition isFiniteRepr (repr : jsstring) : bool :=
  negb (bool_decide (repr = lit "NaN")
        || bool_decide (repr = lit "Infinity")
        || bool_decide (repr = lit "-Infinity")).

(** [String(v)], ECMA-262 ToString. *)
Fixpoint ToString (v : JsValue) : jsstring :=
  match v with
  | JsUndefined => lit "undefined"
  | JsNull => lit "null"
  | JsBool true => lit "true"
  | JsBool false => lit "false"
  | JsNumber repr => repr
  | JsString s => s
  | JsArray elements =>
      join (lit ",")
        (map (fun e => match e with
                       | JsUndefined | JsNull => []
                       | _ => ToString e
                       end) elements)
  | JsObject _ => lit "[object Object]"
  end.

(** *** JSON.stringify *)

Definition hexDigit (d : N) : N :=
  if d <? 10 then 48 + d else 87 + d.

(** [UnicodeEscape]: backslash, u and four lower-case hex digits. *)
Definition UnicodeEscape (c : N) : jsstring :=
  [92; 117; hexDigit (c / 4096 mod 16); hexDigit (c / 256 mod 16);
   hexDigit (c / 16 mod 16); hexDigit (c mod 16)].

Definition isLeadingSurrogate (c : N) : bool := (55296 <=? c) && (c <=? 56319).
Definition isTrailingSurrogate (c : N) : bool := (56320 <=? c) && (c <=? 57343).

(** One code unit that is not part of a surrogate pair. *)
Definition quoteUnit (c : N) : jsstring :=
  if c =? 8 then lit "\b"
  else if c =? 9 then lit "\t"
  else if c =? 10 then lit "\n"
  else if c =? 12 then lit "\f"
  else if c =? 13 then lit "\r"
  else if c =? 34 then [92; 34]
  else if c =? 92 then [92; 92]
  else if (c <? 32) || isLeadingSurrogate c || isTrailingSurrogate c
       then UnicodeEscape c
  else [c].

Fixpoint quoteBody (s : jsstring) : jsstring :=
  match s with
  | [] => []
  | c :: rest =>
      if isLeadingSurrogate c then
        match rest with
        | d :: rest' =>
            if isTrailingSurrogate d then c :: d :: quoteBody rest'
            else quoteUnit c ++ quoteBody rest
        | [] => quoteUnit c
        end
      else quoteUnit c ++ quoteBody rest
  end.

(** [QuoteJSONString] *)
Definition QuoteJSONString (s : jsstring) : jsstring :=
  [34] ++ quoteBody s ++ [34].

(** The closing steps shared by [SerializeJSONObject] and
    [SerializeJSONArray]. *)
Definition wrapPartial (opening closing gap stepback indent : jsstring)
    (partial : list jsstring) : jsstring :=
  match partial with
  | [] => opening ++ closing
  | _ :: _ =>
      match gap with
      | [] => opening ++ join (lit ",") partial ++ closing
      | _ :: _ =>
          opening ++ [10] ++ indent
          ++ join ([44; 10] ++ indent) partial
          ++ [10] ++ stepback ++ closing
      end
  end.

(** One member of an object: the quoted key, a colon, a space when there
    is a gap, and the serialized value. *)
Definition member (gap key strP : jsstring) : jsstring :=
  QuoteJSONString key ++ [58]
  ++ (match gap with [] => [] | _ :: _ => [32] end) ++ strP.

(** The members of an object, in property order: a property whose value
    serializes to [undefined] is left out. *)
Definition members (gap : jsstring) (serialize : JsValue -> option jsstring)
    : list (jsstring * JsValue) -> list jsstring :=
  fix go (ps : list (jsstring * JsValue)) : list jsstring :=
    match ps with
    | [] => []
    | (P, v) :: ps' =>
        match serialize v with
        | Some strP => member gap P strP :: go ps'
        | None => go ps'
        end
    end.

(** [SerializeJSONProperty]; [None] is JavaScript's [undefined]. *)
Fixpoint SerializeJSONProperty (gap indent : jsstring) (value : JsValue)
    : option jsstring :=
  match value with
  | JsUndefined => None
  | JsNull => Some (lit "null")
  | JsBool true => Some (lit "true")
  | JsBool false => Some (lit "false")
  | JsNumber repr => Some (if isFiniteRepr repr then repr else lit "null")
  | JsString s => Some (QuoteJSONString s)
  | JsArray elements =>
      let stepback := indent in
      let indent := indent ++ gap in
      let partial :=
        map (fun e => match SerializeJSONProperty gap indent e with
                      | Some strP => strP
                      | None => lit "null"
                      end) elements in
      Some (wrapPartial [91] [93] gap stepback indent partial)
  | JsObject properties =>
      let stepback := indent in
      let indent := indent ++ gap in
      let partial :=
        members gap (SerializeJSONProperty gap indent) properties in
      Some (wrapPartial [123] [125] gap stepback indent partial)
  end.

(** [JSON.stringify(value, null, 2)]: the gap is two spaces. *)
Definition JSON_stringify_2 (value : JsValue) : option jsstring :=
  SerializeJSONProperty [32; 32] [] value.

End Js.

Import Js.

(** ** Regular expressions

    The fragment of JavaScript regular expressions the source uses:
    literal characters, concatenation and alternation. *)

Inductive regex : Type :=
| RChars (s : jsstring)
| RSeq (r1 r2 : regex)
| RAlt (r1 r2 : regex).

(** The remainders of [s] after each way [r] can match a prefix of it, in
    the order a backtracking matcher tries them. *)
Fixpoint matchPrefix (r : regex) (s : jsstring) : list jsstring :=
  match r with
  | RChars lits => if startsWith s lits then [drop (length lits) s] else []
  | RSeq r1 r2 => flat_map (matchPrefix r2) (matchPrefix r1 s)
  | RAlt r1 r2 => matchPrefix r1 s ++ matchPrefix r2 s
  end.

Definition matchesAt (r : regex) (s : jsstring) : bool :=
  match matchPrefix r s with [] => false | _ :: _ => true end.

(** [RegExp.prototype.test] for a pattern without flags: is there a match
    starting at some index. *)
Fixpoint regex_test (r : regex) (s : jsstring) : bool :=
  matchesAt r s
  || match s with
     | [] => false
     | _ :: s' => regex_test r s'
     end.

(** ** Effects: thrown values, results and the event trace *)

(** What a [catch] clause can receive: an instance of [Error], with its
    message, or any other value. *)
Inductive Thrown : Type :=
| ErrorInstance (message : jsstring)
| NonError (value : JsValue).

Inductive Result (A : Type) : Type :=
| Ok (a : A)
| Throw (e : Thrown).
Arguments Ok {A} a.
Arguments Throw {A} e.

(** [error instanceof Error ? error.message : String(error)] *)
Definition errorMessage (error : Thrown) : jsstring :=
  match error with
  | ErrorInstance message => message
  | NonError value => ToString value
  end.

Inductive SearchEngine : Type := google | bing | yandex.
Inductive DataFormat : Type := html | markdown.
Inductive DatasetFormat : Type := json | jsonl.

(** The options object of [client.scrape] and [client.search]. *)
Record RequestOptions : Type := {
  opt_searchEngine : option SearchEngine;
  opt_dataFormat : DataFormat;
  opt_format : jsstring;
  opt_country : option jsstring;
}.

(** The options object of the dataset collectors. *)
Record CollectOptions : Type := {
  collect_format : DatasetFormat;
  collect_async : bool;
}.

(** One element of the Amazon batch request: [{ url }] or
    [{ url, zipcode }]. *)
Record ProductRequest : Type := {
  req_url : jsstring;
  req_zipcode : option jsstring;
}.

(** The argument of [new bdclient(...)]. *)
Record ClientOptions : Type := {
  opt_apiKey : jsstring;
  opt_autoCreateZones : bool;
}.

(** What the program does to the outside world. *)
Inductive Event : Type :=
| NewClient (options : ClientOptions)
| CallScrape (url : jsstring) (options : RequestOptions)
| CallSearch (query : jsstring) (options : RequestOptions)
| CallCollectProducts (request : list ProductRequest) (options : CollectOptions)
| CallCollectProfiles (urls : list jsstring) (options : CollectOptions).

(** A computation reads the trace so far and returns a value or throws,
    together with the extended trace. An awaited promise that rejects is
    a throw. *)
Definition M (A : Type) : Type := list Event -> Result A * list Event.

Definition ret {A} (a : A) : M A := fun tr => (Ok a, tr).
Definition throw {A} (e : Thrown) : M A := fun tr => (Throw e, tr).
Definition bind {A B} (m : M A) (k : A -> M B) : M B :=
  fun tr =>
    match m tr with
    | (Ok a, tr') => k a tr'
    | (Throw e, tr') => (Throw e, tr')
    end.
Definition try_catch {A} (body : M A) (handler : Thrown -> M A) : M A :=
  fun tr =>
    match body tr with
    | (Ok a, tr') => (Ok a, tr')
    | (Throw e, tr') => handler e tr'
    end.
(** Perform an external call: log it, then continue with its outcome. *)
Definition perform {A} (e : Event) (outcome : Result A) : M A :=
  fun tr => (outcome, tr ++ [e]).

Notation "'let*' x ':=' m 'in' k" := (bind m (fun x => k))
  (at level 10, x name, m at level 100, k at level 200).

(** [throw new Error(message)] *)
Definition throw_new_Error {A} (message : jsstring) : M A :=
  throw (ErrorInstance message).

(** ** The provider client (the SDK's [bdclient]) *)

Record AmazonDataset : Type := {
  collectProducts : list ProductRequest -> CollectOptions -> Result JsValue;
}.

Record LinkedinDataset : Type := {
  collectProfiles : list jsstring -> CollectOptions -> Result JsValue;
}.

Record Datasets : Type := {
  amazon : option AmazonDataset;
  linkedin : option LinkedinDataset;
}.

Record bdclient : Type := {
  client_scrape : jsstring -> RequestOptions -> Result JsValue;
  client_search : jsstring -> RequestOptions -> Result JsValue;
  datasets : option Datasets;
}.

(** ** zod schemas *)

(** A step of an issue's path: a property name or an array index. *)
Inductive PathSegment : Type :=
| Key (name : jsstring)
| Index (i : nat).

(** One validation issue: the path to the offending value and, where the
    source supplies one, the message. *)
Record Issue : Type := {
  issue_path : list PathSegment;
  issue_message : option jsstring;
}.

Inductive SafeParse (A : Type) : Type :=
| ParseOk (data : A)
| ParseError (issues : list Issue).
Arguments ParseOk {A} data.
Arguments ParseError {A} issues.

Definition check (ok : bool) (path : list PathSegment)
    (message : option string) : list Issue :=
  if ok then []
  else [{| issue_path := path; issue_message := lit <$> message |}].

(** [.optional()]: an absent field passes the checks of the field. *)
Definition optionally (passes : jsstring -> bool) (field : option jsstring)
    : bool :=
  match field with
  | None => true
  | Some value => passes value
  end.

Definition isSome {A} (o : option A) : bool :=
  match o with Some _ => true | None => false end.

Definition finish {A} (issues : list Issue) (data : A) : SafeParse A :=
  match issues with
  | [] => ParseOk data
  | _ :: _ => ParseError issues
  end.

(** ** web-tools.ts *)

Inductive BrightDataToolId : Type :=
| scrape
| search
| amazonProduct
| linkedinCollectProfiles.

#[global] Instance BrightDataToolId_eq_dec : EqDecision BrightDataToolId.
Proof. solve_decision. Defined.

#[global] Instance BrightDataToolId_countable : Countable BrightDataToolId.
Proof.
  refine (inj_countable'
    (fun t => match t with
              | scrape => 0%nat | search => 1%nat
              | amazonProduct => 2%nat | linkedinCollectProfiles => 3%nat
              end)
    (fun n => match n with
              | 0%nat => scrape | 1%nat => search
              | 2%nat => amazonProduct | _ => linkedinCollectProfiles
              end) _).
  by intros [].
Defined.

(** The property name of each identifier. *)
Definition toolName (t : BrightDataToolId) : jsstring :=
  match t with
  | scrape => lit "scrape"
  | search => lit "search"
  | amazonProduct => lit "amazonProduct"
  | linkedinCollectProfiles => lit "linkedinCollectProfiles"
  end.

Record BrightDataToolsConfig : Type := {
  apiKey : option jsstring;
  excludeTools : option (list BrightDataToolId);
}.

(** A tool as [createTool] receives it. *)
Record ToolInstance : Type := createTool {
  id : jsstring;
  description : jsstring;
  Context : Type;
  inputSchema : Context -> SafeParse Context;
  execute : Context -> M JsValue;
}.

Record ScrapeInput : Type := {
  scrape_url : jsstring;
  scrape_country : option jsstring;
}.

Record SearchInput : Type := {
  search_query : jsstring;
  search_searchEngine : option SearchEngine;
  search_country : option jsstring;
  search_dataFormat : option DataFormat;
}.

Record AmazonProductInput : Type := {
  amazon_url : jsstring;
  amazon_zipcode : option jsstring;
}.

Record LinkedinCollectProfilesInput : Type := {
  linkedin_urls : list jsstring;
  linkedin_format : option DatasetFormat;
}.

Definition dquote : jsstring := [34].

(** [/\/(dp|gp\/product)\//] *)
Definition productPathPattern : regex :=
  RSeq (RChars (lit "/"))
       (RSeq (RAlt (RChars (lit "dp")) (RChars (lit "gp/product")))
             (RChars (lit "/"))).

Section Provider.

(** [String.prototype.toLowerCase]. *)
Variable toLowerCase : jsstring -> jsstring.
(** zod's [z.string().url()] check: [None] when the string fails it,
    otherwise the value the check hands on. *)
Variable zodUrl : jsstring -> option jsstring.
(** The length zod's string checks [.length(n)] and [.min(n)] measure. *)
Variable zodSize : jsstring -> nat.
(** The SDK's constructor, [new bdclient(options)]; it can throw. *)
Variable new_bdclient : ClientOptions -> Result bdclient.

(** The value after the URL check: what the check hands on, and the
    value as it was when the check fails. *)
Definition afterUrlCheck (value : jsstring) : jsstring :=
  default value (zodUrl value).

(** [.length(n)] and [.min(n)] on a string. *)
Definition lengthIs (n : nat) (value : jsstring) : bool :=
  Nat.eqb (zodSize value) n.
Definition lengthAtLeast (n : nat) (value : jsstring) : bool :=
  Nat.leb n (zodSize value).

Definition scrapeInputSchema (input : ScrapeInput) : SafeParse ScrapeInput :=
  finish
    (check (isSome (zodUrl (scrape_url input))) [Key (lit "url")]
       (Some "A valid URL is required")
     ++ check (optionally (lengthIs 2) (scrape_country input))
          [Key (lit "country")] (Some "Country code must be two letters"))
    {| scrape_url := afterUrlCheck (scrape_url input);
       scrape_country := scrape_country input |}.

Definition searchInputSchema (input : SearchInput) : SafeParse SearchInput :=
  finish
    (check (lengthAtLeast 1 (search_query input)) [Key (lit "query")]
       (Some "Search query is required")
     ++ check (optionally (lengthIs 2) (search_country input))
          [Key (lit "country")] None)
    {| search_query := search_query input;
       search_searchEngine :=
         Some (default google (search_searchEngine input));
       search_country := search_country input;
       search_dataFormat :=
         Some (default markdown (search_dataFormat input)) |}.

Definition amazonProductInputSchema (input : AmazonProductInput)
    : SafeParse AmazonProductInput :=
  finish
    (check (isSome (zodUrl (amazon_url input))) [Key (lit "url")] None
     ++ check (regex_test productPathPattern
                 (afterUrlCheck (amazon_url input)))
          [Key (lit "url")] (Some "URL must contain /dp/ or /gp/product/"))
    {| amazon_url := afterUrlCheck (amazon_url input);
       amazon_zipcode := amazon_zipcode input |}.

(** The issues of the elements of [urls], from index [i] on: one for each
    element that fails the URL check, at the path of that element. *)
Fixpoint elementIssues (i : nat) (urls : list jsstring) : list Issue :=
  match urls with
  | [] => []
  | url :: rest =>
      check (isSome (zodUrl url)) [Key (lit "urls"); Index i] None
      ++ elementIssues (S i) rest
  end.

Definition linkedinCollectProfilesInputSchema
    (input : LinkedinCollectProfilesInput)
    : SafeParse LinkedinCollectProfilesInput :=
  finish
    (elementIssues 0 (linkedin_urls input)
     ++ check (Nat.leb 1 (length (linkedin_urls input)))
          [Key (lit "urls")]
          (Some "Provide at least one LinkedIn profile URL"))
    {| linkedin_urls := afterUrlCheck <$> linkedin_urls input;
       linkedin_format := Some (default json (linkedin_format input)) |}.

Definition createBrightDataClient (apiKey : jsstring) : M bdclient :=
  let options := {| opt_apiKey := apiKey; opt_autoCreateZones := true |} in
  perform (NewClient options) (new_bdclient options).

Definition normalizeDatasetResult (result : JsValue) : JsValue :=
  if typeof_string result then result
  else match JSON_stringify_2 result with
       | Some text => JsString text
       | None => JsUndefined
       end.

Definition scrapeOptions (country : option jsstring) : RequestOptions :=
  {| opt_searchEngine := None;
     opt_dataFormat := markdown;
     opt_format := lit "raw";
     opt_country := toLowerCase <$> country |}.

Definition scrapeFailed (url message : jsstring) : jsstring :=
  lit "Bright Data scrape failed for " ++ dquote ++ url ++ dquote
  ++ lit ": " ++ message.

Definition scrapeExecute (client : bdclient) (context : ScrapeInput)
    : M JsValue :=
  let url := scrape_url context in
  let country := scrape_country context in
  try_catch
    (let* result :=
       perform (CallScrape url (scrapeOptions country))
         (client_scrape client url (scrapeOptions country)) in
     ret result)
    (fun error =>
       let message := errorMessage error in
       throw_new_Error (scrapeFailed url message)).

Definition createScrapeTool (client : bdclient) : ToolInstance :=
  createTool (lit "scrape")
    (lit "Scrape website content and return it in clean markdown format. Bypasses anti-bot protection and CAPTCHAs.")
    ScrapeInput scrapeInputSchema (scrapeExecute client).

Definition searchOptions (searchEngine : SearchEngine)
    (dataFormat : DataFormat) (country : option jsstring) : RequestOptions :=
  {| opt_searchEngine := Some searchEngine;
     opt_dataFormat := dataFormat;
     opt_format := lit "raw";
     opt_country := toLowerCase <$> country |}.

Definition searchFailed (query message : jsstring) : jsstring :=
  lit "Bright Data search failed for " ++ dquote ++ query ++ dquote
  ++ lit ": " ++ message.

Definition searchExecute (client : bdclient) (context : SearchInput)
    : M JsValue :=
  let query := search_query context in
  let searchEngine := default google (search_searchEngine context) in
  let country := search_country context in
  let dataFormat := default markdown (search_dataFormat context) in
  try_catch
    (let* result :=
       perform (CallSearch query (searchOptions searchEngine dataFormat country))
         (client_search client query
            (searchOptions searchEngine dataFormat country)) in
     ret result)
    (fun error =>
       let message := errorMessage error in
       throw_new_Error (searchFailed query message)).

Definition createSearchTool (client : bdclient) : ToolInstance :=
  createTool (lit "search")
    (lit "Search the web using Google, Bing, or Yandex. Returns search results with anti-bot protection bypass.")
    SearchInput searchInputSchema (searchExecute client).

Definition amazonUnavailable : jsstring :=
  lit "Bright Data Amazon dataset client is not available.".

Definition amazonFailed (url message : jsstring) : jsstring :=
  lit "Bright Data Amazon product lookup failed for " ++ dquote ++ url
  ++ dquote ++ lit ": " ++ message.

Definition amazonRequest (url : jsstring) (zipcode : option jsstring)
    : list ProductRequest :=
  [ match trim <$> zipcode with
    | Some ((_ :: _) as trimmed) =>
        {| req_url := url; req_zipcode := Some trimmed |}
    | _ => {| req_url := url; req_zipcode := None |}
    end ].

Definition amazonCollectOptions : CollectOptions :=
  {| collect_format := json; collect_async := false |}.

Definition amazonProductExecute (client : bdclient)
    (context : AmazonProductInput) : M JsValue :=
  let url := amazon_url context in
  let zipcode := amazon_zipcode context in
  match datasets client ≫= amazon with
  | None => throw_new_Error amazonUnavailable
  | Some dataset =>
      let request := amazonRequest url zipcode in
      try_catch
        (let* result :=
           perform (CallCollectProducts request amazonCollectOptions)
             (collectProducts dataset request amazonCollectOptions) in
         ret (normalizeDatasetResult result))
        (fun error =>
           let message := errorMessage error in
           throw_new_Error (amazonFailed url message))
  end.

Definition createAmazonProductTool (client : bdclient) : ToolInstance :=
  createTool (lit "amazonProduct")
    (lit "Get detailed Amazon product information including price, ratings, reviews, and specifications. Requires a valid Amazon product URL.")
    AmazonProductInput amazonProductInputSchema (amazonProductExecute client).

Definition linkedinUnavailable : jsstring :=
  lit "Bright Data LinkedIn dataset client is not available.".

Definition linkedinFailed (message : jsstring) : jsstring :=
  lit "Bright Data LinkedIn profile collection failed: " ++ message.

Definition linkedinCollectOptions (format : DatasetFormat) : CollectOptions :=
  {| collect_format := format; collect_async := false |}.

Definition linkedinCollectProfilesExecute (client : bdclient)
    (context : LinkedinCollectProfilesInput) : M JsValue :=
  let urls := linkedin_urls context in
  let format := default json (linkedin_format context) in
  match datasets client ≫= linkedin with
  | None => throw_new_Error linkedinUnavailable
  | Some dataset =>
      try_catch
        (let* result :=
           perform (CallCollectProfiles urls (linkedinCollectOptions format))
             (collectProfiles dataset urls (linkedinCollectOptions format)) in
         ret (normalizeDatasetResult result))
        (fun error =>
           let message := errorMessage error in
           throw_new_Error (linkedinFailed message))
  end.

Definition createLinkedinCollectProfilesTool (client : bdclient)
    : ToolInstance :=
  createTool (lit "linkedinCollectProfiles")
    (lit "Fetch LinkedIn profile data for one or more profile URLs. Returns work experience, education, skills, and more.")
    LinkedinCollectProfilesInput linkedinCollectProfilesInputSchema
    (linkedinCollectProfilesExecute client).

Definition apiKeyRequired : jsstring :=
  lit "Bright Data API key is required to initialize tools.".

(** [new Set(config.excludeTools)] *)
Definition new_Set (items : option (list BrightDataToolId))
    : gset BrightDataToolId :=
  list_to_set (default [] items).

(** [excludedTools.has(t)] *)
Definition has (s : gset BrightDataToolId) (t : BrightDataToolId) : bool :=
  bool_decide (t ∈ s).

Definition brightDataTools (config : BrightDataToolsConfig)
    : M (gmap BrightDataToolId ToolInstance) :=
  match trim <$> apiKey config with
  | Some ((_ :: _) as trimmed) =>
      let excludedTools := new_Set (excludeTools config) in
      let* client := createBrightDataClient trimmed in
      let tools : gmap BrightDataToolId ToolInstance := ∅ in
      let tools :=
        if negb (has excludedTools scrape)
        then <[scrape := createScrapeTool client]> tools else tools in
      let tools :=
        if negb (has excludedTools search)
        then <[search := createSearchTool client]> tools else tools in
      let tools :=
        if negb (has excludedTools amazonProduct)
        then <[amazonProduct := createAmazonProductTool client]> tools
        else tools in
      let tools :=
        if negb (has excludedTools linkedinCollectProfiles)
        then <[linkedinCollectProfiles :=
                 createLinkedinCollectProfilesTool client]> tools
        else tools in
      ret tools
  | _ => throw_new_Error apiKeyRequired
  end.

(** ** web-agent.ts *)

(** The object handed to the agent. The non-null assertions of the source
    ([searchTool!]) exist only for the type checker: at run time each
    field is whatever the registry held. *)
Record Toolset : Type := {
  searchTool : option ToolInstance;
  scrapeTool : option ToolInstance;
  amazonProductTool : option ToolInstance;
  linkedinCollectProfilesTool : option ToolInstance;
}.

Record Agent : Type := {
  agent_name : jsstring;
  agent_instructions : jsstring;
  agent_model : jsstring;
  agent_tools : Toolset;
  agent_memory_url : jsstring;
}.

(** [!tool] *)
Definition isMissing (tool : option ToolInstance) : bool :=
  match tool with None => true | Some _ => false end.

Definition missingTools (brightTools : gmap BrightDataToolId ToolInstance)
    : list jsstring :=
  fold_left
    (fun acc '(name, tool) => if isMissing tool then acc ++ [name] else acc)
    [ (lit "search", brightTools !! search);
      (lit "scrape", brightTools !! scrape);
      (lit "amazonProduct", brightTools !! amazonProduct);
      (lit "linkedinCollectProfiles", brightTools !! linkedinCollectProfiles) ]
    [].

Definition failedToInitialize (missing : list jsstring) : jsstring :=
  lit "Bright Data tools failed to initialize (" ++ join (lit ", ") missing
  ++ lit "). Verify BRIGHTDATA_API_KEY.".

Definition instructions : jsstring :=
  lit "
      You are a general-purpose web research assistant with Bright Data capabilities.

      Goals:
      - Answer user questions by combining reasoning with fresh information gathered through the available tools.
      - Prefer the tools when facts may have changed or when evidence is required.
      - Clearly cite tool outputs in your responses so users can trace the source.

      Tool usage guidelines:
      - Start with the search tool to build context or surface credible sources.
      - Use the scrape tool to pull detailed content from specific pages when deeper inspection is needed.
      - Call the Amazon product tool for pricing, availability, or review summaries of specific products.
      - Fetch LinkedIn profile details when users need professional background information.
      - Respect user privacy requests and avoid collecting unnecessary personal data.

      Response style:
      - Summarize findings concisely.
      - Highlight key insights, citing which tool provided the evidence.
      - Offer next steps or additional angles to explore when useful.
".

(** The module body from the destructuring of [brightTools] on. *)
Definition assembleAgent (brightTools : gmap BrightDataToolId ToolInstance)
    : M Agent :=
  let missing := missingTools brightTools in
  if Nat.ltb 0 (length missing) then
    throw_new_Error (failedToInitialize missing)
  else
    let toolset :=
      {| searchTool := brightTools !! search;
         scrapeTool := brightTools !! scrape;
         amazonProductTool := brightTools !! amazonProduct;
         linkedinCollectProfilesTool :=
           brightTools !! linkedinCollectProfiles |} in
    ret {| agent_name := lit "Web Agent";
           agent_instructions := instructions;
           agent_model := lit "openai/gpt-4o-mini";
           agent_tools := toolset;
           agent_memory_url := lit "file:../mastra.db" |}.

(** The whole module, given the value of [process.env.BRIGHTDATA_API_KEY]. *)
Definition webAgent (BRIGHTDATA_API_KEY : option jsstring) : M Agent :=
  let apiKey := default [] BRIGHTDATA_API_KEY in
  let* brightTools :=
    brightDataTools {| apiKey := Some apiKey; excludeTools := None |} in
  assembleAgent brightTools.

(** Modelled from the spec: the runtime's tool call is not under src/.
    Section 4.3 has [execute] receive already-schema-validated arguments
    and section 7 has a validation error surface before any network call:
    the input goes through the tool's schema, and [execute] runs on the
    parsed data only when the schema accepts it. *)
Definition invoke (tool : ToolInstance) (input : Context tool)
    : list Event -> SafeParse (Result JsValue) * list Event :=
  fun tr =>
    match inputSchema tool input with
    | ParseError issues => (ParseError issues, tr)
    | ParseOk data =>
        let '(outcome, tr') := execute tool data tr in
        (ParseOk outcome, tr')
    end.

(** ** Notions the properties below are stated with *)

(** The identifiers agent assembly expects, in the order it checks them. *)
Definition expectedTools : list BrightDataToolId :=
  [search; scrape; amazonProduct; linkedinCollectProfiles].

(** The expected identifiers a registry has no entry for. *)
Definition absentFrom (registry : gmap BrightDataToolId ToolInstance)
    : list BrightDataToolId :=
  filter (fun t => isMissing (registry !! t) = true) expectedTools.

(** A credential that is absent, empty or white space only. *)
Definition isBlank (credential : option jsstring) : bool :=
  match trim <$> credential with
  | Some (_ :: _) => false
  | _ => true
  end.

(** The words each failure message uses for its operation. *)
Definition operationName (t : BrightDataToolId) : jsstring :=
  match t with
  | scrape => lit "scrape"
  | search => lit "search"
  | amazonProduct => lit "Amazon product lookup"
  | linkedinCollectProfiles => lit "LinkedIn profile collection"
  end.

(** A code unit [QuoteJSONString] copies as it is: not a control
    character, a double quote, a backslash or a surrogate. *)
Definition isPlainUnit (c : N) : bool :=
  negb ((c <? 32) || (c =? 34) || (c =? 92)
        || isLeadingSurrogate c || isTrailingSurrogate c).

(** A key made of such code units only. *)
Definition plainKey (key : jsstring) : bool := forallb isPlainUnit key.

Fixpoint takeUntil (stop : N -> bool) (s : jsstring) : jsstring :=
  match s with
  | [] => []
  | c :: rest => if stop c then [] else c :: takeUntil stop rest
  end.

Fixpoint dropUntil (stop : N -> bool) (s : jsstring) : jsstring :=
  match s with
  | [] => []
  | c :: rest => if stop c then s else dropUntil stop rest
  end.

(** What follows the first [://] of a string. *)
Fixpoint afterSchemeSeparator (s : jsstring) : jsstring :=
  if startsWith s (lit "://") then drop 3 s
  else match s with
       | [] => []
       | _ :: rest => afterSchemeSeparator rest
       end.

(** [/], [?] or [#]: the end of the authority. *)
Definition endsAuthority (c : N) : bool := (c =? 47) || (c =? 63) || (c =? 35).
(** [?] or [#]: the end of the path. *)
Definition endsPath (c : N) : bool := (c =? 63) || (c =? 35).

(** The path component of [scheme://authority/path?query#fragment]
    (RFC 3986, section 3): what follows the authority, up to the query or
    the fragment. *)
Definition urlPath (url : jsstring) : jsstring :=
  takeUntil endsPath (dropUntil endsAuthority (afterSchemeSeparator url)).

(** What [execute] makes of the outcome of its provider call. *)
Definition settle (normalize : JsValue -> JsValue)
    (failed : jsstring -> jsstring) (outcome : Result JsValue)
    : Result JsValue :=
  match outcome with
  | Ok result => Ok (normalize result)
  | Throw error => Throw (ErrorInstance (failed (errorMessage error)))
  end.

(** The factory [brightDataTools] uses for each identifier. *)
Definition createToolFor (t : BrightDataToolId) (client : bdclient)
    : ToolInstance :=
  match t with
  | scrape => createScrapeTool client
  | search => createSearchTool client
  | amazonProduct => createAmazonProductTool client
  | linkedinCollectProfiles => createLinkedinCollectProfilesTool client
  end.

(** The country field of a schema is absent or of length two, as zod
    measures it. *)
Definition countryOk (country : option jsstring) : Prop :=
  forall c, country = Some c -> zodSize c = 2%nat.

(** The identifier is in the exclusion list of the configuration. *)
Definition excludedBy (excluded : option (list BrightDataToolId))
    (t : BrightDataToolId) : Prop :=
  match excluded with
  | Some identifiers => t ∈ identifiers
  | None => False
  end.

(** [z] is [s] without the white space around it: [s] is [z] between two
    runs of white space, and [z] neither starts nor ends with white
    space. *)
Definition isTrimmed (z s : jsstring) : Prop :=
  (exists pre post,
     s = pre ++ z ++ post
     /\ forallb isWhiteSpace pre = true
     /\ forallb isWhiteSpace post = true)
  /\ (forall c, head z = Some c -> isWhiteSpace c = false)
  /\ (forall c, last z = Some c -> isWhiteSpace c = false).

(** A key occurs in a value: it is the key of a property whose value is
    not [undefined], in the value itself or in an object reached from it
    through properties and array elements. *)
Inductive keyOccurs (key : jsstring) : JsValue -> Prop :=
| occurs_here properties v :
    (key, v) ∈ properties -> v <> JsUndefined ->
    keyOccurs key (JsObject properties)
| occurs_in_property properties k v :
    (k, v) ∈ properties -> keyOccurs key v ->
    keyOccurs key (JsObject properties)
| occurs_in_element elements e :
    e ∈ elements -> keyOccurs key e ->
    keyOccurs key (JsArray elements).

(** ** Concrete collaborators for the examples *)

Definition isLowerAlpha (c : N) : bool := (97 <=? c) && (c <=? 122).
Definition isVisibleAscii (c : N) : bool := (33 <=? c) && (c <=? 126).

(** A conservative recogniser of URLs for the examples: [http://] or
    [https://], a host of dot-separated lower-case words, then nothing or
    a path, query or fragment of visible ASCII characters. Everything it
    accepts is an absolute URL. *)
Definition exampleIsUrl (s : jsstring) : bool :=
  let rest :=
    if startsWith s (lit "https://") then Some (drop 8 s)
    else if startsWith s (lit "http://") then Some (drop 7 s)
    else None in
  match rest with
  | None => false
  | Some r =>
      let host := takeUntil endsAuthority r in
      forallb (fun c => isLowerAlpha c || (c =? 46)) host
      && isLowerAlpha (hd 0 host) && isLowerAlpha (default 0 (last host))
      && negb (includes host (lit ".."))
      && forallb isVisibleAscii (dropUntil endsAuthority r)
  end.

(** A stand-in for zod's URL check in the examples: a string that is a
    recognised URL once the white space around it is removed passes, and
    is handed on without that white space. *)
Definition exampleZodUrl (s : jsstring) : option jsstring :=
  if exampleIsUrl (trim s) then Some (trim s) else None.

(** A stand-in for the length zod measures: the number of code units. *)
Definition exampleSize (s : jsstring) : nat := length s.

(** [toLowerCase] on ASCII letters, the identity elsewhere; it agrees with
    the built-in on ASCII strings. *)
Definition asciiToLowerCase (s : jsstring) : jsstring :=
  map (fun c => if (65 <=? c) && (c <=? 90) then c + 32 else c) s.

(** A client with both datasets, every call of which has one outcome. *)
Definition constantClient (outcome : Result JsValue) : bdclient :=
  {| client_scrape := fun _ _ => outcome;
     client_search := fun _ _ => outcome;
     datasets :=
       Some {| amazon := Some {| collectProducts := fun _ _ => outcome |};
               linkedin := Some {| collectProfiles := fun _ _ => outcome |} |} |}.

(** A client without the dataset capability. *)
Definition clientWithoutDatasets (outcome : Result JsValue) : bdclient :=
  {| client_scrape := fun _ _ => outcome;
     client_search := fun _ _ => outcome;
     datasets := None |}.

(** A client that has [datasets] but neither dataset in it. *)
Definition clientWithEmptyDatasets (outcome : Result JsValue) : bdclient :=
  {| client_scrape := fun _ _ => outcome;
     client_search := fun _ _ => outcome;
     datasets := Some {| amazon := None; linkedin := None |} |}.

(** A stand-in for the SDK's constructor, which refuses a key it finds
    too short: here one of fewer than ten code units. *)
Definition exampleNewClient (options : ClientOptions) : Result bdclient :=
  if Nat.ltb (length (opt_apiKey options)) 10
  then Throw (ErrorInstance (lit "API key must be at least 10 characters long"))
  else Ok (constantClient (Ok (JsString (lit "# Example")))).

(** ** Properties of the string operations *)

Lemma startsWith_spec (s search : jsstring) :
  startsWith s search = true <-> exists post, s = search ++ post.
Proof.
  revert s; induction search as [|a search IH]; intros s; simpl.
  - split; [intros _; by exists s | done].
  - destruct s as [|b s]; simpl.
    + split; [done | intros [post H]; discriminate].
    + rewrite andb_true_iff, N.eqb_eq, IH. split.
      * intros [-> [post ->]]. by exists post.
      * intros [post H]. injection H as -> ->. eauto.
Qed.

Lemma includes_spec (s search : jsstring) :
  includes s search = true <-> exists pre post, s = pre ++ search ++ post.
Proof.
  induction s as [|c s IH]; simpl.
  - rewrite orb_false_r, startsWith_spec. split.
    + intros [post H]. by exists [], post.
    + intros [pre [post H]]. symmetry in H.
      apply app_eq_nil in H as [-> H]. by exists post.
  - rewrite orb_true_iff, startsWith_spec, IH. split.
    + intros [[post H] | [pre [post H]]].
      * by exists [], post.
      * exists (c :: pre), post. by rewrite H.
    + intros [[|c' pre] [post H]].
      * left. by exists post.
      * right. injection H as -> ->. by exists pre, post.
Qed.

Lemma includes_middle (pre x post : jsstring) :
  includes (pre ++ x ++ post) x = true.
Proof. apply includes_spec. by exists pre, post. Qed.

Lemma includes_end (pre x : jsstring) : includes (pre ++ x) x = true.
Proof. apply includes_spec. exists pre, []. by rewrite app_nil_r. Qed.

Lemma includes_app_l (s t x : jsstring) :
  includes s x = true -> includes (s ++ t) x = true.
Proof.
  rewrite !includes_spec. intros [pre [post ->]].
  exists pre, (post ++ t). by rewrite <- !app_assoc.
Qed.

Lemma includes_app_r (s t x : jsstring) :
  includes t x = true -> includes (s ++ t) x = true.
Proof.
  rewrite !includes_spec. intros [pre [post ->]].
  exists (s ++ pre), post. by rewrite <- !app_assoc.
Qed.

Lemma includes_trans (s t x : jsstring) :
  includes s t = true -> includes t x = true -> includes s x = true.
Proof.
  rewrite !includes_spec. intros [p1 [q1 ->]] [p2 [q2 ->]].
  exists (p1 ++ p2), (q2 ++ q1). by rewrite <- !app_assoc.
Qed.

Lemma trimStart_nil (s : jsstring) :
  trimStart s = [] <-> forallb isWhiteSpace s = true.
Proof.
  induction s as [|c s IH]; simpl; [done|].
  destruct (isWhiteSpace c); simpl; [done|]. split; discriminate.
Qed.

Lemma trimStart_all (s : jsstring) :
  forallb isWhiteSpace (trimStart s) = true -> trimStart s = [].
Proof.
  induction s as [|c s IH]; simpl; [done|].
  destruct (isWhiteSpace c) eqn:E; [done|]. simpl. by rewrite E.
Qed.

(** [trim] leaves nothing exactly when every code unit is white space. *)
Lemma trim_nil (s : jsstring) :
  trim s = [] <-> forallb isWhiteSpace s = true.
Proof.
  unfold trim, trimEnd. rewrite <- trimStart_nil. split.
  - intros H. apply (f_equal (@rev N)) in H. rewrite rev_involutive in H.
    simpl in H. apply trimStart_nil in H. rewrite forallb_forall in H.
    apply trimStart_all. apply forallb_forall. intros x Hx.
    apply H. by apply in_rev in Hx.
  - intros ->. done.
Qed.

(** ** Trimming *)

Lemma trimStart_head (s : jsstring) (c : N) (rest : jsstring) :
  trimStart s = c :: rest -> isWhiteSpace c = false.
Proof.
  induction s as [|a s IH]; simpl; [done|].
  destruct (isWhiteSpace a) eqn:E; [done|]. by intros [= <- _].
Qed.

Lemma trimStart_fixed (c : N) (rest : jsstring) :
  isWhiteSpace c = false -> trimStart (c :: rest) = c :: rest.
Proof. intros H. simpl. by rewrite H. Qed.

Lemma trimStart_idempotent (s : jsstring) :
  trimStart (trimStart s) = trimStart s.
Proof.
  destruct (trimStart s) as [|c rest] eqn:E; [done|].
  apply trimStart_fixed. by apply trimStart_head in E.
Qed.

Lemma trimStart_snoc (l : jsstring) (c : N) :
  isWhiteSpace c = false -> exists l', trimStart (l ++ [c]) = l' ++ [c].
Proof.
  intros Hc. induction l as [|a l IH]; simpl.
  - rewrite Hc. by exists [].
  - destruct (isWhiteSpace a); [done|]. by exists (a :: l).
Qed.

(** Trimming the end keeps a first code unit that is not white space. *)
Lemma trimEnd_head (c : N) (rest : jsstring) :
  isWhiteSpace c = false -> exists rest', trimEnd (c :: rest) = c :: rest'.
Proof.
  intros Hc. unfold trimEnd. simpl.
  destruct (trimStart_snoc (rev rest) c Hc) as [l' ->].
  exists (rev l'). by rewrite rev_app_distr.
Qed.

Lemma trimEnd_idempotent (s : jsstring) : trimEnd (trimEnd s) = trimEnd s.
Proof. unfold trimEnd. by rewrite rev_involutive, trimStart_idempotent. Qed.

Lemma trim_head (s : jsstring) (c : N) :
  head (trim s) = Some c -> isWhiteSpace c = false.
Proof.
  unfold trim. destruct (trimStart s) as [|a rest] eqn:E; [done|].
  pose proof (trimStart_head _ _ _ E) as Ha.
  destruct (trimEnd_head a rest Ha) as [rest' ->]. by intros [= <-].
Qed.

Lemma trim_last (s : jsstring) (c : N) :
  last (trim s) = Some c -> isWhiteSpace c = false.
Proof.
  unfold trim, trimEnd.
  destruct (trimStart (rev (trimStart s))) as [|a rest] eqn:E; [done|].
  simpl. rewrite last_snoc. intros [= <-]. by apply trimStart_head in E.
Qed.

Lemma trim_idempotent (s : jsstring) : trim (trim s) = trim s.
Proof.
  unfold trim.
  destruct (trimStart s) as [|a rest] eqn:E; [done|].
  pose proof (trimStart_head _ _ _ E) as Ha.
  destruct (trimEnd_head a rest Ha) as [rest' Hrest].
  rewrite Hrest, (trimStart_fixed _ _ Ha), <- Hrest.
  apply trimEnd_idempotent.
Qed.

Lemma trim_nil_false (s : jsstring) :
  trim s <> [] <-> forallb isWhiteSpace s = false.
Proof.
  rewrite trim_nil. by destruct (forallb isWhiteSpace s).
Qed.


Lemma trimStart_decompose (s : jsstring) :
  exists pre, s = pre ++ trimStart s /\ forallb isWhiteSpace pre = true.
Proof.
  induction s as [|c s (pre & IH & Hpre)]; [by exists []|]. simpl.
  destruct (isWhiteSpace c) eqn:Hc.
  - exists (c :: pre). simpl. rewrite Hc, Hpre. by rewrite <- IH.
  - by exists [].
Qed.

Lemma forallb_rev (f : N -> bool) (l : jsstring) :
  forallb f (rev l) = forallb f l.
Proof.
  induction l as [|c l IH]; [done|]. simpl.
  rewrite forallb_app, IH. simpl. by rewrite andb_true_r, andb_comm.
Qed.

Lemma trimEnd_decompose (s : jsstring) :
  exists post, s = trimEnd s ++ post /\ forallb isWhiteSpace post = true.
Proof.
  unfold trimEnd. destruct (trimStart_decompose (rev s)) as (pre & H & Hpre).
  exists (rev pre). split; [|by rewrite forallb_rev].
  rewrite <- rev_app_distr, <- H. by rewrite rev_involutive.
Qed.

(** What [trim] returns is the string without the white space around
    it. *)
Lemma trim_isTrimmed (s : jsstring) : isTrimmed (trim s) s.
Proof.
  split; [|split; [apply trim_head | apply trim_last]].
  destruct (trimStart_decompose s) as (pre & Hs & Hpre).
  destruct (trimEnd_decompose (trimStart s)) as (post & Ht & Hpost).
  exists pre, post. split; [|done]. unfold trim. by rewrite <- Ht.
Qed.

Lemma join_includes (sep : jsstring) (parts : list jsstring) (p : jsstring) :
  p ∈ parts -> includes (join sep parts) p = true.
Proof.
  induction parts as [|q parts IH]; intros Hin.
  - by apply elem_of_nil in Hin.
  - apply elem_of_cons in Hin as [-> | Hin].
    + destruct parts as [|q' parts]; simpl.
      * apply (includes_end []).
      * apply (includes_middle []).
    + specialize (IH Hin). destruct parts as [|q' parts].
      * by apply elem_of_nil in Hin.
      * change (join sep (q :: q' :: parts))
          with (q ++ sep ++ join sep (q' :: parts)).
        by do 2 apply includes_app_r.
Qed.

(** ** Properties of JSON.stringify *)

Lemma SerializeJSONProperty_None (gap indent : jsstring) (v : JsValue) :
  SerializeJSONProperty gap indent v = None <-> v = JsUndefined.
Proof. destruct v as [| |[]| | | |]; simpl; split; done. Qed.

Lemma members_elem (gap : jsstring) (serialize : JsValue -> option jsstring)
    (ps : list (jsstring * JsValue)) (key strP : jsstring) (v : JsValue) :
  (key, v) ∈ ps -> serialize v = Some strP ->
  member gap key strP ∈ members gap serialize ps.
Proof.
  intros Hin Hser. induction ps as [|[k' v'] ps IH].
  - by apply elem_of_nil in Hin.
  - apply elem_of_cons in Hin as [Heq | Hin]; simpl.
    + injection Heq as <- <-. rewrite Hser. apply elem_of_cons. by left.
    + specialize (IH Hin). destruct (serialize v'); [|done].
      apply elem_of_cons. by right.
Qed.

Lemma wrapPartial_includes
    (opening closing gap stepback indent : jsstring)
    (partial : list jsstring) (p : jsstring) :
  p ∈ partial ->
  includes (wrapPartial opening closing gap stepback indent partial) p = true.
Proof.
  intros Hin. unfold wrapPartial.
  destruct partial as [|q partial]; [by apply elem_of_nil in Hin|].
  destruct gap.
  - apply includes_app_r, includes_app_l. by apply join_includes.
  - do 3 apply includes_app_r. apply includes_app_l. by apply join_includes.
Qed.

Lemma member_includes_key (gap key strP : jsstring) :
  includes (member gap key strP) (QuoteJSONString key) = true.
Proof. unfold member. apply (includes_middle []). Qed.

Lemma quoteUnit_plain (c : N) :
  isPlainUnit c = true -> quoteUnit c = [c] /\ isLeadingSurrogate c = false.
Proof.
  unfold isPlainUnit. rewrite negb_true_iff, !orb_false_iff.
  intros [[[[Hlt H34] H92] Hlead] Htrail]. split; [|done].
  unfold quoteUnit. rewrite Hlt, H34, H92, Hlead, Htrail. simpl.
  apply N.ltb_ge in Hlt.
  repeat match goal with
         | |- context [?a =? ?b] =>
             let E := fresh in
             destruct (N.eqb_spec a b) as [E|E]; [exfalso; lia|]
         end.
  done.
Qed.

Lemma quoteBody_plain (key : jsstring) :
  plainKey key = true -> quoteBody key = key.
Proof.
  induction key as [|c key IH]; [done|]. unfold plainKey. simpl.
  rewrite andb_true_iff. intros [Hc Hrest].
  apply quoteUnit_plain in Hc as [-> ->]. simpl. f_equal. by apply IH.
Qed.

(** A plain key sits in its quoted form as it is, between double quotes. *)
Lemma QuoteJSONString_plain (key : jsstring) :
  plainKey key = true -> QuoteJSONString key = dquote ++ key ++ dquote.
Proof. intros H. unfold QuoteJSONString. by rewrite quoteBody_plain. Qed.

(** ** Properties of the product-path pattern *)

Lemma startsWith_app (s a b : jsstring) :
  startsWith s (a ++ b) = startsWith s a && startsWith (drop (length a) s) b.
Proof.
  revert s. induction a as [|x a IH]; intros s; simpl; [done|].
  destruct s as [|y s]; simpl.
  - done.
  - by rewrite IH, andb_assoc.
Qed.

Lemma matchesAt_chars_chars (a b s : jsstring) :
  matchesAt (RSeq (RChars a) (RChars b)) s = startsWith s (a ++ b).
Proof.
  unfold matchesAt. rewrite startsWith_app. simpl.
  destruct (startsWith s a); simpl; [|done].
  rewrite app_nil_r. by destruct (startsWith _ b).
Qed.

Lemma matchesAt_productPathPattern (s : jsstring) :
  matchesAt productPathPattern s
  = startsWith s (lit "/dp/") || startsWith s (lit "/gp/product/").
Proof.
  change (lit "/dp/") with (lit "/" ++ lit "dp" ++ lit "/").
  change (lit "/gp/product/") with (lit "/" ++ lit "gp/product" ++ lit "/").
  rewrite 2!(startsWith_app s (lit "/")), <- andb_orb_distrib_r.
  rewrite <- 2!matchesAt_chars_chars.
  unfold matchesAt, productPathPattern.
  change (matchPrefix (RSeq (RChars (lit "/")) ?r) s)
    with (flat_map (matchPrefix r) (matchPrefix (RChars (lit "/")) s)).
  cbn [matchPrefix]. destruct (startsWith s (lit "/")); [|done].
  cbn [flat_map]. rewrite app_nil_r.
  rewrite flat_map_app. cbn [andb].
  match goal with |- context [?l ++ _] => by destruct l end.
Qed.

(** The pattern matches exactly the strings that contain [/dp/] or
    [/gp/product/]. *)
Lemma regex_test_productPathPattern (s : jsstring) :
  regex_test productPathPattern s
  = includes s (lit "/dp/") || includes s (lit "/gp/product/").
Proof.
  induction s as [|c s IH].
  - done.
  - change (regex_test productPathPattern (c :: s))
      with (matchesAt productPathPattern (c :: s)
            || regex_test productPathPattern s).
    rewrite IH, matchesAt_productPathPattern.
    change (includes (c :: s) ?x)
      with (startsWith (c :: s) x || includes s x).
    set (a := startsWith _ (lit "/dp/")).
    set (b := startsWith _ (lit "/gp/product/")).
    by destruct a, b, (includes s (lit "/dp/")),
       (includes s (lit "/gp/product/")).
Qed.

(** ** The tool registry *)

Lemma isBlank_whitespace (key : jsstring) :
  isBlank (Some key) = true <-> forallb isWhiteSpace key = true.
Proof.
  rewrite <- trim_nil. unfold isBlank. simpl.
  destruct (trim key); split; done.
Qed.

Lemma brightDataTools_run (key : jsstring)
    (excluded : option (list BrightDataToolId)) (tr : list Event) :
  trim key <> [] ->
  let options := {| opt_apiKey := trim key; opt_autoCreateZones := true |} in
  let E := new_Set excluded in
  let add t tool (tools : gmap BrightDataToolId ToolInstance) :=
    if negb (has E t) then <[t := tool]> tools else tools in
  brightDataTools {| apiKey := Some key; excludeTools := excluded |} tr
  = match new_bdclient options with
    | Ok client =>
        (Ok (add linkedinCollectProfiles
               (createLinkedinCollectProfilesTool client)
               (add amazonProduct (createAmazonProductTool client)
                  (add search (createSearchTool client)
                     (add scrape (createScrapeTool client) ∅)))),
         tr ++ [NewClient options])
    | Throw e => (Throw e, tr ++ [NewClient options])
    end.
Proof.
  intros Hkey. unfold brightDataTools. simpl.
  destruct (trim key) as [|c rest] eqn:E; [done|].
  unfold bind, createBrightDataClient, perform.
  by destruct (new_bdclient _).
Qed.

Lemma brightDataTools_run_ok (key : jsstring)
    (excluded : option (list BrightDataToolId)) (tr : list Event)
    (client : bdclient) :
  trim key <> [] ->
  let options := {| opt_apiKey := trim key; opt_autoCreateZones := true |} in
  new_bdclient options = Ok client ->
  let E := new_Set excluded in
  let add t tool (tools : gmap BrightDataToolId ToolInstance) :=
    if negb (has E t) then <[t := tool]> tools else tools in
  brightDataTools {| apiKey := Some key; excludeTools := excluded |} tr
  = (Ok (add linkedinCollectProfiles
           (createLinkedinCollectProfilesTool client)
           (add amazonProduct (createAmazonProductTool client)
              (add search (createSearchTool client)
                 (add scrape (createScrapeTool client) ∅)))),
     tr ++ [NewClient options]).
Proof.
  intros Hkey options Hclient. rewrite (brightDataTools_run _ _ _ Hkey).
  cbv zeta. fold options. by rewrite Hclient.
Qed.

(** A registry is returned only with a key that is not blank and a
    constructor that returned a client. *)
Lemma brightDataTools_returns (key : jsstring)
    (excluded : option (list BrightDataToolId)) (tr : list Event)
    (tools : gmap BrightDataToolId ToolInstance) (tr' : list Event) :
  brightDataTools {| apiKey := Some key; excludeTools := excluded |} tr
  = (Ok tools, tr') ->
  trim key <> []
  /\ exists client,
       new_bdclient {| opt_apiKey := trim key; opt_autoCreateZones := true |}
       = Ok client.
Proof.
  intros Hrun. destruct (trim key) as [|c rest] eqn:Hkey.
  - unfold brightDataTools in Hrun. simpl in Hrun. by rewrite Hkey in Hrun.
  - assert (trim key <> []) as Hne by by rewrite Hkey.
    rewrite (brightDataTools_run _ _ _ Hne) in Hrun. cbv zeta in Hrun.
    rewrite Hkey in *. split; [done|].
    destruct (new_bdclient _) as [client|e]; [by exists client | done].
Qed.

Lemma has_excludedBy (excluded : option (list BrightDataToolId))
    (t : BrightDataToolId) :
  has (new_Set excluded) t = true <-> excludedBy excluded t.
Proof.
  unfold has, new_Set, excludedBy.
  rewrite bool_decide_eq_true, elem_of_list_to_set.
  destruct excluded; simpl; [done|]. by rewrite elem_of_nil.
Qed.

(** C1. With a credential that is not empty once trimmed, and a
    constructor that returns a client for it, [brightDataTools] returns a
    registry that has no entry for an identifier of the exclusion list
    and an entry, the tool of that name, for every other identifier. *)
Theorem brightDataTools_exclusions (key : jsstring)
    (excluded : option (list BrightDataToolId)) (tr : list Event)
    (client : bdclient) :
  trim key <> [] ->
  new_bdclient {| opt_apiKey := trim key; opt_autoCreateZones := true |}
  = Ok client ->
  exists tools tr',
    brightDataTools {| apiKey := Some key; excludeTools := excluded |} tr
    = (Ok tools, tr')
    /\ forall t : BrightDataToolId,
         (excludedBy excluded t -> tools !! t = None)
         /\ (~ excludedBy excluded t ->
             exists tool, tools !! t = Some tool /\ id tool = toolName t).
Proof.
  intros Hkey Hclient.
  rewrite (brightDataTools_run_ok _ _ _ _ Hkey Hclient). cbv zeta.
  eexists _, _. split; [reflexivity|].
  intros t. pose proof (has_excludedBy excluded) as Hex.
  destruct (has (new_Set excluded) scrape) eqn:H1,
    (has (new_Set excluded) search) eqn:H2,
    (has (new_Set excluded) amazonProduct) eqn:H3,
    (has (new_Set excluded) linkedinCollectProfiles) eqn:H4; simpl;
    (split; intros Ht;
     [apply Hex in Ht; destruct t; simplify_map_eq; congruence
     |destruct t; simplify_map_eq; eauto; exfalso; by apply Ht, Hex]).
Qed.

Lemma brightDataTools_blank_run (config : BrightDataToolsConfig)
    (tr : list Event) :
  isBlank (apiKey config) = true ->
  brightDataTools config tr = (Throw (ErrorInstance apiKeyRequired), tr).
Proof.
  unfold brightDataTools, isBlank.
  by destruct (trim <$> apiKey config) as [[|c rest]|].
Qed.

(** C2. With a credential that is absent, empty or white space only,
    [brightDataTools] throws the configuration error and leaves the trace
    as it found it: no client has been constructed. *)
Theorem brightDataTools_blank_credential (config : BrightDataToolsConfig)
    (tr : list Event) :
  isBlank (apiKey config) = true ->
  brightDataTools config tr = (Throw (ErrorInstance apiKeyRequired), tr)
  /\ includes apiKeyRequired (lit "API key is required") = true.
Proof.
  intros Hblank. split; [by apply brightDataTools_blank_run | by vm_compute].
Qed.

(** ** Agent assembly *)

(** C3. Agent assembly succeeds, without touching the trace, when the
    registry has all four expected identifiers; otherwise it throws an
    error whose message lists the absent identifiers, every one of them
    by name. *)
Theorem assembleAgent_completeness
    (registry : gmap BrightDataToolId ToolInstance) (tr : list Event) :
  match absentFrom registry with
  | [] => exists agent, assembleAgent registry tr = (Ok agent, tr)
  | absent =>
      let message := failedToInitialize (toolName <$> absent) in
      assembleAgent registry tr = (Throw (ErrorInstance message), tr)
      /\ forall t, registry !! t = None ->
                   includes message (toolName t) = true
  end.
Proof.
  unfold absentFrom, assembleAgent, missingTools, expectedTools.
  destruct (registry !! search) eqn:E1, (registry !! scrape) eqn:E2,
    (registry !! amazonProduct) eqn:E3,
    (registry !! linkedinCollectProfiles) eqn:E4;
    rewrite !filter_cons, ?E1, ?E2, ?E3, ?E4; simpl;
    try (eexists; reflexivity);
    (split; [reflexivity|]);
    intros [] Ht; try congruence; by vm_compute.
Qed.

Lemma missingTools_absentFrom
    (registry : gmap BrightDataToolId ToolInstance) :
  missingTools registry = toolName <$> absentFrom registry.
Proof.
  unfold absentFrom, missingTools, expectedTools.
  rewrite !filter_cons.
  by destruct (registry !! search), (registry !! scrape),
    (registry !! amazonProduct), (registry !! linkedinCollectProfiles).
Qed.

Lemma apiKeyRequired_not_completeness (missing : list jsstring) :
  apiKeyRequired <> failedToInitialize missing.
Proof. unfold failedToInitialize. vm_compute. discriminate. Qed.

(** C10. The module calls [brightDataTools] without an exclusion list, so
    a registry it returns has all four identifiers and an empty list of
    missing tools, and assembly produces the agent from it. Whatever the
    module throws was thrown by [brightDataTools]: the completeness error
    is never reached. With a credential that is not blank and a
    constructor that returns a client, the module produces the agent. *)
Theorem webAgent_completeness_unreachable
    (BRIGHTDATA_API_KEY : option jsstring) (tr : list Event) :
  let config :=
    {| apiKey := Some (default [] BRIGHTDATA_API_KEY);
       excludeTools := None |} in
  (forall tools tr',
     brightDataTools config tr = (Ok tools, tr') ->
     (forall t, is_Some (tools !! t)) /\ missingTools tools = []
     /\ exists agent,
          assembleAgent tools tr' = (Ok agent, tr')
          /\ webAgent BRIGHTDATA_API_KEY tr = (Ok agent, tr'))
  /\ (forall e tr',
        webAgent BRIGHTDATA_API_KEY tr = (Throw e, tr') ->
        brightDataTools config tr = (Throw e, tr'))
  /\ (forall client,
        isBlank (apiKey config) = false ->
        new_bdclient
          {| opt_apiKey := trim (default [] BRIGHTDATA_API_KEY);
             opt_autoCreateZones := true |} = Ok client ->
        exists agent tr',
          webAgent BRIGHTDATA_API_KEY tr = (Ok agent, tr')
          /\ forall tool, tool ∈ [searchTool; scrapeTool; amazonProductTool;
                                  linkedinCollectProfilesTool] ->
                          is_Some (tool (agent_tools agent))).
Proof.
  cbv zeta. set (key := default [] BRIGHTDATA_API_KEY).
  assert (forall tools tr',
            brightDataTools {| apiKey := Some key; excludeTools := None |} tr
            = (Ok tools, tr') ->
            forall t, is_Some (tools !! t)) as Hall.
  { intros tools tr' Hrun.
    destruct (brightDataTools_returns _ _ _ _ _ Hrun) as [Hkey [client Hc]].
    rewrite (brightDataTools_run_ok _ _ _ _ Hkey Hc) in Hrun.
    cbv zeta in Hrun. unfold has, new_Set in Hrun. simpl in Hrun.
    injection Hrun as <- _. intros t. destruct t; simplify_map_eq; eauto. }
  assert (forall tools, (forall t, is_Some (tools !! t)) ->
                        missingTools tools = []) as Hmissing.
  { intros tools Ht. unfold missingTools.
    destruct (Ht search) as [? ->], (Ht scrape) as [? ->],
      (Ht amazonProduct) as [? ->],
      (Ht linkedinCollectProfiles) as [? ->]. done. }
  assert (forall tools tr',
            brightDataTools {| apiKey := Some key; excludeTools := None |} tr
            = (Ok tools, tr') ->
            exists agent,
              (assembleAgent tools tr' = (Ok agent, tr')
               /\ webAgent BRIGHTDATA_API_KEY tr = (Ok agent, tr'))
              /\ agent_tools agent
                 = {| searchTool := tools !! search;
                      scrapeTool := tools !! scrape;
                      amazonProductTool := tools !! amazonProduct;
                      linkedinCollectProfilesTool :=
                        tools !! linkedinCollectProfiles |}) as Hagent.
  { intros tools tr' Hrun. unfold webAgent. fold key. unfold bind.
    rewrite Hrun. unfold assembleAgent.
    rewrite (Hmissing tools (Hall _ _ Hrun)). simpl. by eexists. }
  split; [|split].
  - intros tools tr' Hrun. split; [by eapply Hall|].
    split; [eapply Hmissing; by eapply Hall|].
    destruct (Hagent _ _ Hrun) as (agent & Hok & _). by exists agent.
  - intros e tr' Hweb.
    destruct (brightDataTools {| apiKey := Some key; excludeTools := None |}
                tr) as [[tools|e0] tr0] eqn:Hrun.
    + destruct (Hagent _ _ eq_refl) as (agent & [_ Hok] & _).
      rewrite Hok in Hweb. discriminate Hweb.
    + unfold webAgent in Hweb. fold key in Hweb. unfold bind in Hweb.
      rewrite Hrun in Hweb. by injection Hweb as -> ->.
  - intros client Hblank Hclient.
    assert (trim key <> []) as Hkey.
    { intros H. unfold isBlank in Hblank. simpl in Hblank.
      by rewrite H in Hblank. }
    pose proof (brightDataTools_run_ok _ None tr _ Hkey Hclient) as Hrun.
    cbv zeta in Hrun.
    destruct (Hagent _ _ Hrun) as (agent & [_ Hok] & Htools).
    exists agent. eexists. split; [exact Hok|].
    intros tool Htool. rewrite Htools.
    repeat (apply elem_of_cons in Htool as [-> | Htool];
            [simpl; eapply Hall; exact Hrun|]).
    by apply elem_of_nil in Htool.
Qed.

(** ** Tool execution *)

Lemma scrapeExecute_run (client : bdclient) (context : ScrapeInput)
    (tr : list Event) :
  let url := scrape_url context in
  let options := scrapeOptions (scrape_country context) in
  scrapeExecute client context tr
  = (settle (fun r => r) (scrapeFailed url) (client_scrape client url options),
     tr ++ [CallScrape url options]).
Proof.
  cbv zeta. unfold scrapeExecute, try_catch, bind, perform.
  by destruct (client_scrape _ _ _).
Qed.

Lemma searchExecute_run (client : bdclient) (context : SearchInput)
    (tr : list Event) :
  let query := search_query context in
  let options :=
    searchOptions (default google (search_searchEngine context))
      (default markdown (search_dataFormat context))
      (search_country context) in
  searchExecute client context tr
  = (settle (fun r => r) (searchFailed query)
       (client_search client query options),
     tr ++ [CallSearch query options]).
Proof.
  cbv zeta. unfold searchExecute, try_catch, bind, perform.
  by destruct (client_search _ _ _).
Qed.

Lemma amazonProductExecute_run (client : bdclient) (dataset : AmazonDataset)
    (context : AmazonProductInput) (tr : list Event) :
  datasets client ≫= amazon = Some dataset ->
  let url := amazon_url context in
  let request := amazonRequest url (amazon_zipcode context) in
  amazonProductExecute client context tr
  = (settle normalizeDatasetResult (amazonFailed url)
       (collectProducts dataset request amazonCollectOptions),
     tr ++ [CallCollectProducts request amazonCollectOptions]).
Proof.
  intros Hdataset. cbv zeta. unfold amazonProductExecute. rewrite Hdataset.
  unfold try_catch, bind, perform. by destruct (collectProducts _ _ _).
Qed.

Lemma linkedinCollectProfilesExecute_run (client : bdclient)
    (dataset : LinkedinDataset) (context : LinkedinCollectProfilesInput)
    (tr : list Event) :
  datasets client ≫= linkedin = Some dataset ->
  let urls := linkedin_urls context in
  let options :=
    linkedinCollectOptions (default json (linkedin_format context)) in
  linkedinCollectProfilesExecute client context tr
  = (settle normalizeDatasetResult linkedinFailed
       (collectProfiles dataset urls options),
     tr ++ [CallCollectProfiles urls options]).
Proof.
  intros Hdataset. cbv zeta. unfold linkedinCollectProfilesExecute.
  rewrite Hdataset.
  unfold try_catch, bind, perform. by destruct (collectProfiles _ _ _).
Qed.

Lemma scrapeFailed_includes (url message : jsstring) :
  includes (scrapeFailed url message) (operationName scrape) = true
  /\ includes (scrapeFailed url message) url = true
  /\ includes (scrapeFailed url message) message = true.
Proof.
  unfold scrapeFailed. split; [by vm_compute|split].
  - apply includes_app_r, includes_app_r, includes_app_l.
    apply (includes_end []).
  - do 5 apply includes_app_r. apply (includes_end []).
Qed.

Lemma searchFailed_includes (query message : jsstring) :
  includes (searchFailed query message) (operationName search) = true
  /\ includes (searchFailed query message) query = true
  /\ includes (searchFailed query message) message = true.
Proof.
  unfold searchFailed. split; [by vm_compute|split].
  - apply includes_app_r, includes_app_r, includes_app_l.
    apply (includes_end []).
  - do 5 apply includes_app_r. apply (includes_end []).
Qed.

Lemma amazonFailed_includes (url message : jsstring) :
  includes (amazonFailed url message) (operationName amazonProduct) = true
  /\ includes (amazonFailed url message) url = true
  /\ includes (amazonFailed url message) message = true.
Proof.
  unfold amazonFailed. split; [by vm_compute|split].
  - apply includes_app_r, includes_app_r, includes_app_l.
    apply (includes_end []).
  - do 5 apply includes_app_r. apply (includes_end []).
Qed.

Lemma linkedinFailed_includes (message : jsstring) :
  includes (linkedinFailed message) (operationName linkedinCollectProfiles)
  = true
  /\ includes (linkedinFailed message) message = true.
Proof.
  unfold linkedinFailed. split; [by vm_compute|].
  apply includes_end.
Qed.

(** C4, as the code has it. When the provider call fails, [execute]
    throws an [Error] whose message has the operation's name and the
    underlying message (the thrown error's own, or the thrown value as a
    string); for scrape, search and amazonProduct it also has the URL or
    the query, and for linkedinCollectProfiles it is built from the
    underlying message alone, whatever the URLs. *)
Theorem provider_failure_message (client : bdclient) (error : Thrown)
    (tr : list Event) :
  (forall context,
     client_scrape client (scrape_url context)
       (scrapeOptions (scrape_country context)) = Throw error ->
     exists message,
       fst (scrapeExecute client context tr) = Throw (ErrorInstance message)
       /\ includes message (operationName scrape) = true
       /\ includes message (scrape_url context) = true
       /\ includes message (errorMessage error) = true)
  /\ (forall context,
        client_search client (search_query context)
          (searchOptions (default google (search_searchEngine context))
             (default markdown (search_dataFormat context))
             (search_country context)) = Throw error ->
        exists message,
          fst (searchExecute client context tr)
          = Throw (ErrorInstance message)
          /\ includes message (operationName search) = true
          /\ includes message (search_query context) = true
          /\ includes message (errorMessage error) = true)
  /\ (forall dataset context,
        datasets client ≫= amazon = Some dataset ->
        collectProducts dataset
          (amazonRequest (amazon_url context) (amazon_zipcode context))
          amazonCollectOptions = Throw error ->
        exists message,
          fst (amazonProductExecute client context tr)
          = Throw (ErrorInstance message)
          /\ includes message (operationName amazonProduct) = true
          /\ includes message (amazon_url context) = true
          /\ includes message (errorMessage error) = true)
  /\ (forall dataset context,
        datasets client ≫= linkedin = Some dataset ->
        collectProfiles dataset (linkedin_urls context)
          (linkedinCollectOptions (default json (linkedin_format context)))
        = Throw error ->
        fst (linkedinCollectProfilesExecute client context tr)
        = Throw (ErrorInstance (linkedinFailed (errorMessage error)))
        /\ includes (linkedinFailed (errorMessage error))
             (operationName linkedinCollectProfiles) = true
        /\ includes (linkedinFailed (errorMessage error))
             (errorMessage error) = true).
Proof.
  split; [|split; [|split]].
  - intros context H. rewrite scrapeExecute_run. cbv zeta. rewrite H.
    eexists. split; [reflexivity|]. apply scrapeFailed_includes.
  - intros context H. rewrite searchExecute_run. cbv zeta. rewrite H.
    eexists. split; [reflexivity|]. apply searchFailed_includes.
  - intros dataset context Hd H.
    rewrite (amazonProductExecute_run _ _ _ _ Hd). cbv zeta. rewrite H.
    eexists. split; [reflexivity|]. apply amazonFailed_includes.
  - intros dataset context Hd H.
    rewrite (linkedinCollectProfilesExecute_run _ _ _ _ Hd). cbv zeta.
    rewrite H. split; [reflexivity|]. apply linkedinFailed_includes.
Qed.

Lemma normalizeDatasetResult_string (s : jsstring) :
  normalizeDatasetResult (JsString s) = JsString s.
Proof. done. Qed.

(** Anything but a string or [undefined] becomes its pretty-printed JSON
    text, which has the quoted key of every property of an object whose
    value is not [undefined]. *)
Lemma normalizeDatasetResult_structured (result : JsValue) :
  typeof_string result = false -> result <> JsUndefined ->
  exists text,
    JSON_stringify_2 result = Some text
    /\ normalizeDatasetResult result = JsString text
    /\ forall properties key v,
         result = JsObject properties -> (key, v) ∈ properties ->
         v <> JsUndefined ->
         includes text (QuoteJSONString key) = true
         /\ (plainKey key = true -> includes text key = true).
Proof.
  intros Hstr Hundef. unfold normalizeDatasetResult. rewrite Hstr.
  destruct (JSON_stringify_2 result) as [text|] eqn:Htext.
  2: { by apply SerializeJSONProperty_None in Htext. }
  exists text. repeat split; try done.
  all: intros; subst result; injection Htext as <-.
  all: destruct (SerializeJSONProperty [32; 32] ([] ++ [32; 32]) v)
         as [strP|] eqn:Hv;
         [|by apply SerializeJSONProperty_None in Hv].
  all: pose proof (members_elem [32; 32] _ _ _ _ _ H0 Hv) as Hmem.
  all: pose proof (wrapPartial_includes [123] [125] [32; 32] []
                     ([] ++ [32; 32]) _ _ Hmem) as Hinc.
  - eapply includes_trans; [exact Hinc|]. apply member_includes_key.
  - eapply includes_trans; [exact Hinc|].
    eapply includes_trans; [apply member_includes_key|].
    rewrite QuoteJSONString_plain by done. apply includes_middle.
Qed.

(** C5, as the code has it. On a successful provider call, scrape and
    search return the provider's result as it is; amazonProduct and
    linkedinCollectProfiles return it normalized: a string result as it
    is, and any other result but [undefined] as the string of its
    pretty-printed JSON, in which every key of an object with a value
    other than [undefined] appears, quoted. *)
Theorem successful_call_result (client : bdclient) (result : JsValue)
    (tr : list Event) :
  (forall context,
     client_scrape client (scrape_url context)
       (scrapeOptions (scrape_country context)) = Ok result ->
     fst (scrapeExecute client context tr) = Ok result)
  /\ (forall context,
        client_search client (search_query context)
          (searchOptions (default google (search_searchEngine context))
             (default markdown (search_dataFormat context))
             (search_country context)) = Ok result ->
        fst (searchExecute client context tr) = Ok result)
  /\ (forall dataset context,
        datasets client ≫= amazon = Some dataset ->
        collectProducts dataset
          (amazonRequest (amazon_url context) (amazon_zipcode context))
          amazonCollectOptions = Ok result ->
        fst (amazonProductExecute client context tr)
        = Ok (normalizeDatasetResult result))
  /\ (forall dataset context,
        datasets client ≫= linkedin = Some dataset ->
        collectProfiles dataset (linkedin_urls context)
          (linkedinCollectOptions (default json (linkedin_format context)))
        = Ok result ->
        fst (linkedinCollectProfilesExecute client context tr)
        = Ok (normalizeDatasetResult result))
  /\ (typeof_string result = true -> normalizeDatasetResult result = result)
  /\ (typeof_string result = false -> result <> JsUndefined ->
      exists text,
        JSON_stringify_2 result = Some text
        /\ normalizeDatasetResult result = JsString text
        /\ forall properties key v,
             result = JsObject properties -> (key, v) ∈ properties ->
             v <> JsUndefined ->
             includes text (QuoteJSONString key) = true
             /\ (plainKey key = true -> includes text key = true)).
Proof.
  split; [|split; [|split; [|split; [|split]]]].
  - intros context H. rewrite scrapeExecute_run. cbv zeta. by rewrite H.
  - intros context H. rewrite searchExecute_run. cbv zeta. by rewrite H.
  - intros dataset context Hd H.
    rewrite (amazonProductExecute_run _ _ _ _ Hd). cbv zeta. by rewrite H.
  - intros dataset context Hd H.
    rewrite (linkedinCollectProfilesExecute_run _ _ _ _ Hd). cbv zeta.
    by rewrite H.
  - intros H. unfold normalizeDatasetResult. by rewrite H.
  - apply normalizeDatasetResult_structured.
Qed.

(** C6. Whatever comes of it, a search invocation makes exactly one
    provider call: [client.search] with the query and with options in
    which an omitted engine is google, an omitted result format is
    markdown, the transport format is the literal raw, and the country
    code, when there is one, is lower-cased. The schema applies the same
    two defaults when it parses the input. *)
Theorem searchExecute_dispatch (client : bdclient) (context : SearchInput)
    (tr : list Event) :
  (exists options,
     snd (searchExecute client context tr)
     = tr ++ [CallSearch (search_query context) options]
     /\ opt_searchEngine options
        = Some (match search_searchEngine context with
                | Some engine => engine
                | None => google
                end)
     /\ opt_dataFormat options
        = match search_dataFormat context with
          | Some format => format
          | None => markdown
          end
     /\ opt_format options = lit "raw"
     /\ opt_country options
        = match search_country context with
          | Some country => Some (toLowerCase country)
          | None => None
          end)
  /\ (forall data,
        searchInputSchema context = ParseOk data ->
        search_query data = search_query context
        /\ search_country data = search_country context
        /\ search_searchEngine data
           = Some (match search_searchEngine context with
                   | Some engine => engine
                   | None => google
                   end)
        /\ search_dataFormat data
           = Some (match search_dataFormat context with
                   | Some format => format
                   | None => markdown
                   end)).
Proof.
  split.
  - rewrite searchExecute_run. cbv zeta. eexists. split; [reflexivity|].
    simpl. by destruct (search_searchEngine context),
      (search_dataFormat context), (search_country context).
  - intros data. unfold searchInputSchema, finish.
    destruct (_ ++ _); [|done]. intros H. injection H as <-. simpl.
    by destruct (search_searchEngine context), (search_dataFormat context).
Qed.

(** C7. With the Amazon dataset available, an amazonProduct invocation
    makes exactly one provider call: [collectProducts] with a batch of one
    element and the options [format: json], [async: false]. The element
    has the URL. It has no zip code when none was supplied or the one
    supplied is white space only; otherwise it has the zip code supplied
    without the white space around it. *)
Theorem amazonProductExecute_request (client : bdclient)
    (dataset : AmazonDataset) (context : AmazonProductInput)
    (tr : list Event) :
  datasets client ≫= amazon = Some dataset ->
  exists element,
    snd (amazonProductExecute client context tr)
    = tr ++ [CallCollectProducts [element]
               {| collect_format := json; collect_async := false |}]
    /\ req_url element = amazon_url context
    /\ (amazon_zipcode context = None -> req_zipcode element = None)
    /\ (forall zipcode,
          amazon_zipcode context = Some zipcode ->
          forallb isWhiteSpace zipcode = true ->
          req_zipcode element = None)
    /\ (forall zipcode,
          amazon_zipcode context = Some zipcode ->
          forallb isWhiteSpace zipcode = false ->
          exists z,
            req_zipcode element = Some z /\ z <> [] /\ isTrimmed z zipcode).
Proof.
  intros Hd. rewrite (amazonProductExecute_run _ _ _ _ Hd). cbv zeta.
  unfold amazonRequest. eexists. split; [reflexivity|].
  destruct (amazon_zipcode context) as [zipcode|]; simpl.
  - pose proof (trim_isTrimmed zipcode) as Htrimmed.
    pose proof (trim_nil zipcode) as Hnil.
    destruct (trim zipcode) as [|c rest] eqn:Htrim; simpl.
    + split; [done|]. split; [done|]. split; [done|].
      intros z [= <-] Hws. rewrite (proj1 Hnil eq_refl) in Hws. done.
    + split; [done|]. split; [done|]. split.
      * intros z [= <-] Hws. apply Hnil in Hws. done.
      * intros z [= <-] _. by eexists.
  - split; [done|]. split; [done|]. split; intros z Hz; done.
Qed.

Lemma amazonUnavailable_not_failure (url message : jsstring) :
  amazonUnavailable <> amazonFailed url message.
Proof. unfold amazonFailed. vm_compute. discriminate. Qed.

Lemma linkedinUnavailable_not_failure (message : jsstring) :
  linkedinUnavailable <> linkedinFailed message.
Proof. unfold linkedinFailed. vm_compute. discriminate. Qed.

(** C8. On a client without the dataset it needs, amazonProduct and
    linkedinCollectProfiles throw their dataset-client-is-not-available
    error and leave the trace as they found it: no provider call has been
    made. The message is not one a wrapped provider failure can have. *)
Theorem dataset_unavailable (client : bdclient) (tr : list Event) :
  (datasets client ≫= amazon = None ->
   forall context,
     amazonProductExecute client context tr
     = (Throw (ErrorInstance amazonUnavailable), tr))
  /\ (datasets client ≫= linkedin = None ->
      forall context,
        linkedinCollectProfilesExecute client context tr
        = (Throw (ErrorInstance linkedinUnavailable), tr))
  /\ includes amazonUnavailable (lit "dataset client is not available")
     = true
  /\ includes linkedinUnavailable (lit "dataset client is not available")
     = true
  /\ (forall url message, amazonUnavailable <> amazonFailed url message)
  /\ (forall message, linkedinUnavailable <> linkedinFailed message).
Proof.
  split; [|split; [|split; [|split; [|split]]]].
  - intros H context. unfold amazonProductExecute. by rewrite H.
  - intros H context. unfold linkedinCollectProfilesExecute. by rewrite H.
  - by vm_compute.
  - by vm_compute.
  - apply amazonUnavailable_not_failure.
  - apply linkedinUnavailable_not_failure.
Qed.

(** ** Validation of the Amazon product URL *)

Lemma includes_white_prefix (pre s : jsstring) (h : N) (t : jsstring) :
  forallb isWhiteSpace pre = true -> isWhiteSpace h = false ->
  includes (pre ++ s) (h :: t) = includes s (h :: t).
Proof.
  intros Hpre Hh. induction pre as [|c pre IH]; [done|].
  simpl in Hpre. apply andb_true_iff in Hpre as [Hc Hpre].
  change (includes ((c :: pre) ++ s) (h :: t))
    with (startsWith (c :: pre ++ s) (h :: t) || includes (pre ++ s) (h :: t)).
  rewrite (IH Hpre). simpl.
  destruct (N.eqb_spec h c) as [->|_]; [congruence|done].
Qed.

Lemma includes_rev (s x : jsstring) :
  includes (rev s) (rev x) = includes s x.
Proof.
  apply Bool.eq_iff_eq_true. rewrite !includes_spec. split.
  - intros (pre & post & H). exists (rev post), (rev pre).
    apply (f_equal (@rev N)) in H.
    by rewrite rev_involutive, !rev_app_distr, rev_involutive,
      <- app_assoc in H.
  - intros (pre & post & ->). exists (rev post), (rev pre).
    by rewrite !rev_app_distr, <- app_assoc.
Qed.

Lemma includes_white_suffix (s post x : jsstring) (h : N) (t : jsstring) :
  forallb isWhiteSpace post = true -> rev x = h :: t ->
  isWhiteSpace h = false ->
  includes (s ++ post) x = includes s x.
Proof.
  intros Hpost Hx Hh.
  rewrite <- (includes_rev (s ++ post)), <- (includes_rev s), Hx.
  rewrite rev_app_distr. apply includes_white_prefix; [|done].
  by rewrite forallb_rev.
Qed.

(** A string that neither starts nor ends with white space is in a
    string exactly when it is in the trimmed string. *)
Lemma includes_trim (s : jsstring) (h : N) (t : jsstring)
    (h' : N) (t' : jsstring) :
  isWhiteSpace h = false -> rev (h :: t) = h' :: t' ->
  isWhiteSpace h' = false ->
  includes (trim s) (h :: t) = includes s (h :: t).
Proof.
  intros Hh Hrev Hh'.
  destruct (trim_isTrimmed s) as [(pre & post & Hs & Hpre & Hpost) _].
  rewrite Hs at 2.
  rewrite (includes_white_prefix _ _ _ _ Hpre Hh).
  by rewrite (includes_white_suffix _ _ _ _ _ Hpost Hrev Hh').
Qed.

Lemma amazonProductInputSchema_accepts (input : AmazonProductInput) :
  let checked := afterUrlCheck (amazon_url input) in
  amazonProductInputSchema input
  = if isSome (zodUrl (amazon_url input))
       && (includes checked (lit "/dp/")
           || includes checked (lit "/gp/product/"))
    then ParseOk {| amazon_url := checked;
                    amazon_zipcode := amazon_zipcode input |}
    else ParseError
           (check (isSome (zodUrl (amazon_url input))) [Key (lit "url")]
              None
            ++ check (regex_test productPathPattern checked)
                 [Key (lit "url")]
                 (Some "URL must contain /dp/ or /gp/product/")).
Proof.
  cbv zeta. unfold amazonProductInputSchema.
  rewrite <- regex_test_productPathPattern.
  by destruct (isSome _), (regex_test _ _).
Qed.

(** C9, as the code has it. The schema accepts an input exactly when its
    url passes the URL check and the url, as the check hands it on and
    taken as a whole string, contains [/dp/] or [/gp/product/]; the data
    it returns has the url as the check handed it on. When the check
    hands the url on as it is, or without the white space around it,
    that is the same as the url given containing one of the two. A url
    that passes the check and contains neither is rejected with the issue
    the source words for it, and then the tool is not executed: the trace
    stays as it was. *)
Theorem amazonProductInputSchema_url (input : AmazonProductInput) :
  (forall data,
     amazonProductInputSchema input = ParseOk data
     <-> exists checked,
           zodUrl (amazon_url input) = Some checked
           /\ (includes checked (lit "/dp/") = true
               \/ includes checked (lit "/gp/product/") = true)
           /\ data = {| amazon_url := checked;
                        amazon_zipcode := amazon_zipcode input |})
  /\ (forall checked,
        zodUrl (amazon_url input) = Some checked ->
        checked = amazon_url input \/ checked = trim (amazon_url input) ->
        includes checked (lit "/dp/")
        = includes (amazon_url input) (lit "/dp/")
        /\ includes checked (lit "/gp/product/")
           = includes (amazon_url input) (lit "/gp/product/"))
  /\ (forall checked,
        zodUrl (amazon_url input) = Some checked ->
        includes checked (lit "/dp/") = false ->
        includes checked (lit "/gp/product/") = false ->
        forall client tr,
        exists issues,
          invoke (createAmazonProductTool client) input tr
          = (ParseError issues, tr)
          /\ {| issue_path := [Key (lit "url")];
                issue_message :=
                  Some (lit "URL must contain /dp/ or /gp/product/") |}
             ∈ issues).
Proof.
  split; [|split].
  - intros data. rewrite amazonProductInputSchema_accepts. cbv zeta.
    unfold afterUrlCheck.
    destruct (zodUrl (amazon_url input)) as [checked|]; simpl.
    + destruct (includes checked (lit "/dp/") || includes checked _)
        eqn:Hinc.
      * apply orb_true_iff in Hinc. split.
        -- intros [= <-]. by exists checked.
        -- by intros (c & [= <-] & _ & ->).
      * apply orb_false_iff in Hinc as [H1 H2]. split; [done|].
        intros (c & [= <-] & [H|H] & _); congruence.
    + split; [done|]. by intros (c & H & _).
  - intros checked _ [->| ->]; [done|]. split.
    + by apply (includes_trim _ 47 _ 47 (lit "pd/")).
    + by apply (includes_trim _ 47 _ 47 (lit "tcudorp/pg/")).
  - intros checked Hc H1 H2 client tr. unfold invoke. simpl.
    rewrite amazonProductInputSchema_accepts. cbv zeta.
    unfold afterUrlCheck. rewrite Hc. simpl. rewrite H1, H2. simpl.
    eexists. split; [reflexivity|].
    rewrite regex_test_productPathPattern, H1, H2. simpl.
    apply elem_of_cons. by left.
Qed.

(** ** More on the registry *)

(** X1. With a credential that is not blank, [brightDataTools] calls the
    constructor exactly once and makes no provider call, whatever is
    excluded. The constructor gets the trimmed key, which neither starts
    nor ends with white space, and [autoCreateZones: true]. When it
    returns a client, every tool of the registry is built over that one
    client; when it throws, [brightDataTools] throws what it threw. *)
Theorem brightDataTools_single_client (key : jsstring)
    (excluded : option (list BrightDataToolId)) (tr : list Event) :
  trim key <> [] ->
  let options := {| opt_apiKey := trim key; opt_autoCreateZones := true |} in
  let run :=
    brightDataTools {| apiKey := Some key; excludeTools := excluded |} tr in
  match new_bdclient options with
  | Ok client =>
      exists tools,
        run = (Ok tools, tr ++ [NewClient options])
        /\ forall t tool,
             tools !! t = Some tool -> tool = createToolFor t client
  | Throw e => run = (Throw e, tr ++ [NewClient options])
  end
  /\ (forall c, head (trim key) = Some c -> isWhiteSpace c = false)
  /\ (forall c, last (trim key) = Some c -> isWhiteSpace c = false).
Proof.
  intros Hkey. cbv zeta. rewrite (brightDataTools_run _ _ _ Hkey). cbv zeta.
  split; [|split; [apply trim_head | apply trim_last]].
  destruct (new_bdclient _) as [client|e]; [|done].
  eexists. split; [reflexivity|].
  intros t tool. unfold has.
  destruct t; repeat case_bool_decide; simpl; simplify_map_eq; congruence.
Qed.

(** X2. [brightDataTools] returns a registry exactly when the credential
    is present, has a code unit that is not white space, and the
    constructor returns a client for the trimmed credential. When the
    credential is absent or white space only it throws the configuration
    error and the trace is untouched. *)
Theorem brightDataTools_succeeds_iff (config : BrightDataToolsConfig)
    (tr : list Event) :
  ((exists tools tr', brightDataTools config tr = (Ok tools, tr'))
   <-> exists key client,
         apiKey config = Some key
         /\ forallb isWhiteSpace key = false
         /\ new_bdclient
              {| opt_apiKey := trim key; opt_autoCreateZones := true |}
            = Ok client)
  /\ ((forall key, apiKey config = Some key ->
                   forallb isWhiteSpace key = true) ->
      brightDataTools config tr
      = (Throw (ErrorInstance apiKeyRequired), tr)).
Proof.
  destruct config as [[key|] excluded]; simpl.
  - destruct (forallb isWhiteSpace key) eqn:Hws.
    + assert (isBlank (Some key) = true) as Hblank
        by by apply isBlank_whitespace.
      rewrite (brightDataTools_blank_run
                 {| apiKey := Some key; excludeTools := excluded |} tr
                 Hblank).
      split; [|done]. split.
      * by intros (tools & tr' & H).
      * intros (key' & client & [= <-] & H & _). congruence.
    + assert (trim key <> []) as Hkey by by apply trim_nil_false.
      split.
      * split.
        -- intros (tools & tr' & Hrun).
           destruct (brightDataTools_returns _ _ _ _ _ Hrun)
             as [_ [client Hclient]].
           by exists key, client.
        -- intros (key' & client & [= <-] & _ & Hclient).
           rewrite (brightDataTools_run_ok _ _ _ _ Hkey Hclient).
           by eexists _, _.
      * intros H. specialize (H key eq_refl). congruence.
  - rewrite (brightDataTools_blank_run
               {| apiKey := None; excludeTools := excluded |} tr eq_refl).
    split; [|done]. split.
    + by intros (tools & tr' & H).
    + by intros (key' & client & H & _).
Qed.

(** X3. The registry depends on the exclusion list only through the set
    of its elements: order and repetitions make no difference. *)
Theorem brightDataTools_exclusion_set (key : option jsstring)
    (excluded excluded' : list BrightDataToolId) (tr : list Event) :
  (forall t, t ∈ excluded <-> t ∈ excluded') ->
  brightDataTools {| apiKey := key; excludeTools := Some excluded |} tr
  = brightDataTools {| apiKey := key; excludeTools := Some excluded' |} tr.
Proof.
  intros Hsame.
  assert (new_Set (Some excluded) = new_Set (Some excluded')) as Hset.
  { unfold new_Set. simpl. apply set_eq. intros t.
    by rewrite !elem_of_list_to_set. }
  unfold brightDataTools. simpl.
  destruct (trim <$> key) as [[|c rest]|]; [done| |done].
  by rewrite Hset.
Qed.

Lemma assembleAgent_run
    (registry : gmap BrightDataToolId ToolInstance) (tr : list Event) :
  assembleAgent registry tr
  = match absentFrom registry with
    | [] =>
        (Ok {| agent_name := lit "Web Agent";
               agent_instructions := instructions;
               agent_model := lit "openai/gpt-4o-mini";
               agent_tools :=
                 {| searchTool := registry !! search;
                    scrapeTool := registry !! scrape;
                    amazonProductTool := registry !! amazonProduct;
                    linkedinCollectProfilesTool :=
                      registry !! linkedinCollectProfiles |};
               agent_memory_url := lit "file:../mastra.db" |}, tr)
    | absent =>
        (Throw (ErrorInstance (failedToInitialize (toolName <$> absent))),
         tr)
    end.
Proof.
  unfold assembleAgent. rewrite missingTools_absentFrom.
  by destruct (absentFrom registry).
Qed.

Lemma brightDataTools_absentFrom (key : jsstring)
    (excluded : option (list BrightDataToolId)) (tr : list Event)
    (tools : gmap BrightDataToolId ToolInstance) (tr' : list Event) :
  brightDataTools {| apiKey := Some key; excludeTools := excluded |} tr
  = (Ok tools, tr') ->
  absentFrom tools
  = filter (fun t => t ∈ new_Set excluded) expectedTools.
Proof.
  intros Hrun.
  destruct (brightDataTools_returns _ _ _ _ _ Hrun) as [Hkey [client Hc]].
  rewrite (brightDataTools_run_ok _ _ _ _ Hkey Hc) in Hrun.
  cbv zeta in Hrun. injection Hrun as <- _.
  unfold absentFrom, expectedTools, has.
  rewrite !filter_cons, !filter_nil.
  repeat case_bool_decide; simpl; simplify_map_eq;
    repeat case_decide; simpl in *; try done.
Qed.

(** X4. Assembling an agent from the registry [brightDataTools] returned
    succeeds exactly when nothing expected was excluded. Otherwise it
    throws the completeness error, whose list is the excluded identifiers
    in the fixed order search, scrape, amazonProduct,
    linkedinCollectProfiles, whatever their order in the exclusion
    list. *)
Theorem brightDataTools_then_assembleAgent (key : jsstring)
    (excluded : option (list BrightDataToolId)) (tr : list Event)
    (tools : gmap BrightDataToolId ToolInstance) (tr' : list Event) :
  brightDataTools {| apiKey := Some key; excludeTools := excluded |} tr
  = (Ok tools, tr') ->
  let listed := filter (fun t => t ∈ new_Set excluded) expectedTools in
  (listed = [] -> exists agent, assembleAgent tools tr' = (Ok agent, tr'))
  /\ (listed <> [] ->
      assembleAgent tools tr'
      = (Throw (ErrorInstance (failedToInitialize (toolName <$> listed))),
         tr')).
Proof.
  intros Hrun. cbv zeta. rewrite assembleAgent_run.
  rewrite (brightDataTools_absentFrom _ _ _ _ _ Hrun).
  destruct (filter _ expectedTools); split; try done.
  intros _. by eexists.
Qed.

(** X5. When the module produces its agent, it has constructed one client,
    with the trimmed value of the environment variable, and called the
    provider not at all; each slot of the agent's tool set holds the tool
    of that name, built over that client. *)
Theorem webAgent_wiring (BRIGHTDATA_API_KEY : option jsstring)
    (tr : list Event) (agent : Agent) (tr' : list Event) :
  webAgent BRIGHTDATA_API_KEY tr = (Ok agent, tr') ->
  let options :=
    {| opt_apiKey := trim (default [] BRIGHTDATA_API_KEY);
       opt_autoCreateZones := true |} in
  exists client,
    new_bdclient options = Ok client
    /\ tr' = tr ++ [NewClient options]
    /\ searchTool (agent_tools agent) = Some (createSearchTool client)
    /\ scrapeTool (agent_tools agent) = Some (createScrapeTool client)
    /\ amazonProductTool (agent_tools agent)
       = Some (createAmazonProductTool client)
    /\ linkedinCollectProfilesTool (agent_tools agent)
       = Some (createLinkedinCollectProfilesTool client)
    /\ agent_name agent = lit "Web Agent"
    /\ agent_model agent = lit "openai/gpt-4o-mini".
Proof.
  set (key := default [] BRIGHTDATA_API_KEY).
  unfold webAgent. fold key. unfold bind.
  destruct (brightDataTools {| apiKey := Some key; excludeTools := None |}
              tr) as [[tools|e] tr0] eqn:Hrun; [|done].
  destruct (brightDataTools_returns _ _ _ _ _ Hrun) as [Hkey [client Hc]].
  rewrite (brightDataTools_run_ok _ _ _ _ Hkey Hc) in Hrun.
  cbv zeta in Hrun. unfold has, new_Set in Hrun. simpl in Hrun.
  injection Hrun as <- <-. rewrite assembleAgent_run. simpl.
  unfold absentFrom, expectedTools. rewrite !filter_cons, !filter_nil.
  simplify_map_eq. simpl. intros [= <- <-]. exists client. simpl.
  by simplify_map_eq.
Qed.

(** ** More on tool execution *)

(** X6. A scrape invocation makes exactly one provider call, whether it
    succeeds or fails: [client.scrape] with the URL as given and options
    that always ask for markdown content in raw transport format, name no
    search engine, and carry the country code lower-cased when there is
    one. *)
Theorem scrapeExecute_dispatch (client : bdclient) (context : ScrapeInput)
    (tr : list Event) :
  snd (scrapeExecute client context tr)
  = tr ++ [CallScrape (scrape_url context)
             {| opt_searchEngine := None;
                opt_dataFormat := markdown;
                opt_format := lit "raw";
                opt_country :=
                  match scrape_country context with
                  | Some country => Some (toLowerCase country)
                  | None => None
                  end |}].
Proof.
  rewrite scrapeExecute_run. cbv zeta. unfold scrapeOptions. simpl.
  by destruct (scrape_country context).
Qed.

(** X7. With the LinkedIn dataset available, a linkedinCollectProfiles
    invocation makes exactly one provider call, whether it succeeds or
    fails: [collectProfiles] with the list of URLs as given, in order and
    not wrapped further, the output format asked for (json when none
    was), and [async: false]. *)
Theorem linkedinCollectProfilesExecute_dispatch (client : bdclient)
    (dataset : LinkedinDataset) (context : LinkedinCollectProfilesInput)
    (tr : list Event) :
  datasets client ≫= linkedin = Some dataset ->
  snd (linkedinCollectProfilesExecute client context tr)
  = tr ++ [CallCollectProfiles (linkedin_urls context)
             {| collect_format :=
                  match linkedin_format context with
                  | Some format => format
                  | None => json
                  end;
                collect_async := false |}].
Proof.
  intros Hd. rewrite (linkedinCollectProfilesExecute_run _ _ _ _ Hd).
  cbv zeta. unfold linkedinCollectOptions.
  by destruct (linkedin_format context).
Qed.

Lemma settle_throws (normalize : JsValue -> JsValue)
    (failed : jsstring -> jsstring) (outcome : Result JsValue)
    (e : Thrown) :
  settle normalize failed outcome = Throw e ->
  exists error, outcome = Throw error
                /\ e = ErrorInstance (failed (errorMessage error)).
Proof. destruct outcome as [r|error]; simpl; [done|]. intros [= <-]. eauto. Qed.

(** X8. Whatever the provider throws, an [Error] or any other value, what
    a tool's [execute] throws is an [Error], and its message starts with
    [Bright Data]. *)
Theorem execute_throws_errors (client : bdclient) (tr : list Event)
    (e : Thrown) :
  let branded :=
    exists message,
      e = ErrorInstance message
      /\ startsWith message (lit "Bright Data ") = true in
  (forall context, fst (scrapeExecute client context tr) = Throw e -> branded)
  /\ (forall context,
        fst (searchExecute client context tr) = Throw e -> branded)
  /\ (forall context,
        fst (amazonProductExecute client context tr) = Throw e -> branded)
  /\ (forall context,
        fst (linkedinCollectProfilesExecute client context tr) = Throw e ->
        branded).
Proof.
  cbv zeta. split; [|split; [|split]]; intros context.
  - rewrite scrapeExecute_run. cbv zeta. simpl.
    intros H. apply settle_throws in H as (error & _ & ->). by eexists.
  - rewrite searchExecute_run. cbv zeta. simpl.
    intros H. apply settle_throws in H as (error & _ & ->). by eexists.
  - destruct (datasets client ≫= amazon) as [dataset|] eqn:Hd.
    + rewrite (amazonProductExecute_run _ _ _ _ Hd). cbv zeta. simpl.
      intros H. apply settle_throws in H as (error & _ & ->). by eexists.
    + unfold amazonProductExecute. rewrite Hd. simpl.
      intros [= <-]. by eexists.
  - destruct (datasets client ≫= linkedin) as [dataset|] eqn:Hd.
    + rewrite (linkedinCollectProfilesExecute_run _ _ _ _ Hd). cbv zeta.
      simpl. intros H. apply settle_throws in H as (error & _ & ->). by eexists.
    + unfold linkedinCollectProfilesExecute. rewrite Hd. simpl.
      intros [= <-]. by eexists.
Qed.

(** X9. The messages of the different failures never coincide: the
    configuration error, the completeness error, the two
    dataset-unavailable errors and the four provider-failure templates
    are pairwise different, whatever inputs and underlying messages go
    into them. *)
Theorem error_messages_distinct
    (missing : list jsstring) (url query productUrl : jsstring)
    (m1 m2 m3 m4 : jsstring) :
  NoDup [apiKeyRequired; failedToInitialize missing;
         amazonUnavailable; linkedinUnavailable;
         scrapeFailed url m1; searchFailed query m2;
         amazonFailed productUrl m3; linkedinFailed m4].
Proof.
  repeat (apply NoDup_cons; split;
          [rewrite ?elem_of_cons, elem_of_nil; intros H;
           repeat (destruct H as [H|H]; [vm_compute in H; discriminate H|]);
           exact H|]).
  apply NoDup_nil_2.
Qed.

(** X10. [normalizeDatasetResult] gives a string, or [undefined] when the
    result was [undefined], and normalizing again changes nothing; so a
    dataset tool that succeeds returns a string or [undefined], never a
    structured value. *)
Theorem normalizeDatasetResult_idempotent (result : JsValue) :
  normalizeDatasetResult (normalizeDatasetResult result)
  = normalizeDatasetResult result
  /\ ((exists text, normalizeDatasetResult result = JsString text)
      \/ (result = JsUndefined
          /\ normalizeDatasetResult result = JsUndefined))
  /\ (forall client context tr value,
        fst (amazonProductExecute client context tr) = Ok value ->
        (exists text, value = JsString text) \/ value = JsUndefined)
  /\ (forall client context tr value,
        fst (linkedinCollectProfilesExecute client context tr) = Ok value ->
        (exists text, value = JsString text) \/ value = JsUndefined).
Proof.
  assert (forall r,
            (exists text, normalizeDatasetResult r = JsString text)
            \/ (r = JsUndefined /\ normalizeDatasetResult r = JsUndefined))
    as Hrange.
  { intros r. unfold normalizeDatasetResult.
    destruct (typeof_string r) eqn:Hs.
    - destruct r; try done. left. by eexists.
    - destruct (JSON_stringify_2 r) as [text|] eqn:Ht.
      + left. by eexists.
      + right. by apply SerializeJSONProperty_None in Ht. }
  split; [|split; [exact (Hrange result)|split]].
  - destruct (Hrange result) as [[text ->]|[-> ->]]; done.
  - intros client context tr value.
    destruct (datasets client ≫= amazon) as [dataset|] eqn:Hd.
    + rewrite (amazonProductExecute_run _ _ _ _ Hd). cbv zeta. simpl.
      destruct (collectProducts _ _ _) as [r|]; simpl; [|done].
      intros [= <-]. destruct (Hrange r) as [?|[_ ->]]; eauto.
    + unfold amazonProductExecute. by rewrite Hd.
  - intros client context tr value.
    destruct (datasets client ≫= linkedin) as [dataset|] eqn:Hd.
    + rewrite (linkedinCollectProfilesExecute_run _ _ _ _ Hd). cbv zeta.
      simpl. destruct (collectProfiles _ _ _) as [r|]; simpl; [|done].
      intros [= <-]. destruct (Hrange r) as [?|[_ ->]]; eauto.
    + unfold linkedinCollectProfilesExecute. by rewrite Hd.
Qed.

Lemma amazonRequest_trim (url zipcode : jsstring) :
  amazonRequest url (Some (trim zipcode)) = amazonRequest url (Some zipcode).
Proof. unfold amazonRequest. simpl. by rewrite trim_idempotent. Qed.

(** X11. White space around the zip code does not change what
    amazonProduct does: the invocation with a zip code and the one with
    that zip code trimmed are the same, and a zip code of white space
    only is the same as none. *)
Theorem amazonProductExecute_zip_whitespace (client : bdclient)
    (url zipcode : jsstring) (tr : list Event) :
  amazonProductExecute client
    {| amazon_url := url; amazon_zipcode := Some zipcode |} tr
  = amazonProductExecute client
      {| amazon_url := url; amazon_zipcode := Some (trim zipcode) |} tr
  /\ (forallb isWhiteSpace zipcode = true ->
      amazonProductExecute client
        {| amazon_url := url; amazon_zipcode := Some zipcode |} tr
      = amazonProductExecute client
          {| amazon_url := url; amazon_zipcode := None |} tr).
Proof.
  unfold amazonProductExecute. simpl. rewrite amazonRequest_trim.
  split; [done|]. intros Hws. apply trim_nil in Hws.
  unfold amazonRequest. simpl. by rewrite Hws.
Qed.


(** ** More on the input schemas *)

Lemma finish_ParseOk {A} (issues : list Issue) (data data' : A) :
  finish issues data = ParseOk data' <-> issues = [] /\ data' = data.
Proof.
  destruct issues; simpl; split; try done.
  - by intros [= ->].
  - by intros [_ ->].
  - by intros [? _].
Qed.

Lemma finish_ParseError {A} (issues : list Issue) (data : A) :
  issues <> [] -> finish issues data = ParseError issues.
Proof. by destruct issues. Qed.

Lemma check_nil (ok : bool) (path : list PathSegment)
    (message : option string) :
  check ok path message = [] <-> ok = true.
Proof. by destruct ok. Qed.

Lemma check_false (path : list PathSegment) (message : option string) :
  check false path message
  = [{| issue_path := path; issue_message := lit <$> message |}].
Proof. done. Qed.

Lemma optionally_countryOk (country : option jsstring) :
  optionally (lengthIs 2) country = true <-> countryOk country.
Proof.
  unfold countryOk, lengthIs. destruct country as [c|]; simpl.
  - rewrite Nat.eqb_eq. split; [by intros H c' [= <-] | eauto].
  - split; done.
Qed.

Lemma app_nil_iff (l1 l2 : list Issue) : l1 ++ l2 = [] <-> l1 = [] /\ l2 = [].
Proof. split; [apply app_eq_nil | by intros [-> ->]]. Qed.

Lemma elementIssues_nil (i : nat) (urls : list jsstring) :
  elementIssues i urls = []
  <-> Forall (fun url => isSome (zodUrl url) = true) urls.
Proof.
  revert i. induction urls as [|url urls IH]; intros i; simpl.
  - split; [by constructor | done].
  - rewrite app_nil_iff, check_nil, IH, Forall_cons. done.
Qed.

Lemma elementIssues_elem (i j : nat) (urls : list jsstring)
    (url : jsstring) :
  urls !! j = Some url -> zodUrl url = None ->
  {| issue_path := [Key (lit "urls"); Index (i + j)];
     issue_message := None |} ∈ elementIssues i urls.
Proof.
  revert i j. induction urls as [|u urls IH]; intros i j Hj Hurl; [done|].
  simpl. apply elem_of_app. destruct j as [|j]; simpl in Hj.
  - left. injection Hj as ->. rewrite Hurl, Nat.add_0_r. simpl.
    apply elem_of_cons. by left.
  - right. replace (i + S j)%nat with (S i + j)%nat by lia. by apply IH.
Qed.

Lemma afterUrlCheck_handed_on (urls : list jsstring) :
  Forall (fun url => isSome (zodUrl url) = true) urls ->
  Forall2 (fun url checked => zodUrl url = Some checked) urls
    (afterUrlCheck <$> urls).
Proof.
  induction 1 as [|url urls Hurl _ IH]; [by constructor|].
  rewrite fmap_cons. constructor; [|done].
  unfold afterUrlCheck. by destruct (zodUrl url).
Qed.

(** X12. For an input whose fields are strings, the scrape schema accepts
    it exactly when the url passes the URL check and the country code, if
    there is one, has length two by zod's measure; the data it returns
    has the url as the check handed it on and the country code as given.
    A url that fails the check is reported as [A valid URL is required]
    at [url], a country code of another length as [Country code must be
    two letters] at [country]. *)
Theorem scrapeInputSchema_accepts (input : ScrapeInput) :
  (forall data,
     scrapeInputSchema input = ParseOk data
     <-> exists checked,
           zodUrl (scrape_url input) = Some checked
           /\ countryOk (scrape_country input)
           /\ data = {| scrape_url := checked;
                        scrape_country := scrape_country input |})
  /\ (zodUrl (scrape_url input) = None ->
      exists issues,
        scrapeInputSchema input = ParseError issues
        /\ {| issue_path := [Key (lit "url")];
              issue_message := Some (lit "A valid URL is required") |}
           ∈ issues)
  /\ (~ countryOk (scrape_country input) ->
      exists issues,
        scrapeInputSchema input = ParseError issues
        /\ {| issue_path := [Key (lit "country")];
              issue_message :=
                Some (lit "Country code must be two letters") |}
           ∈ issues).
Proof.
  unfold scrapeInputSchema, afterUrlCheck. split; [|split].
  - intros data.
    rewrite finish_ParseOk, app_nil_iff, !check_nil, optionally_countryOk.
    destruct (zodUrl (scrape_url input)) as [checked|]; simpl; split.
    + intros [[_ Hc] ->]. by exists checked.
    + by intros (c & [= <-] & Hc & ->).
    + by intros [[? _] _].
    + by intros (c & ? & _).
  - intros ->. simpl. eexists. split; [reflexivity|].
    apply elem_of_cons. by left.
  - intros Hc. rewrite <- optionally_countryOk in Hc.
    apply not_true_is_false in Hc. rewrite Hc. eexists. split.
    + apply finish_ParseError. rewrite (check_false [Key (lit "country")]).
      intros [_ H]%app_eq_nil. done.
    + apply elem_of_app. right. apply elem_of_cons. by left.
Qed.

(** X14. For an input whose fields are of their types, the
    linkedinCollectProfiles schema accepts it exactly when the list of
    URLs is not empty and every one of them passes the URL check; the
    data it returns has, in the same order, the URLs as the check handed
    them on, and the output format json when none was asked for. An empty
    list is reported as [Provide at least one LinkedIn profile URL] at
    [urls]; a URL that fails the check is reported at its own index. *)
Theorem linkedinCollectProfilesInputSchema_accepts
    (input : LinkedinCollectProfilesInput) :
  ((exists data, linkedinCollectProfilesInputSchema input = ParseOk data)
   <-> linkedin_urls input <> []
       /\ Forall (fun url => isSome (zodUrl url) = true)
            (linkedin_urls input))
  /\ (forall data,
        linkedinCollectProfilesInputSchema input = ParseOk data ->
        Forall2 (fun url checked => zodUrl url = Some checked)
          (linkedin_urls input) (linkedin_urls data)
        /\ linkedin_format data
           = Some (match linkedin_format input with
                   | Some format => format
                   | None => json
                   end))
  /\ (linkedin_urls input = [] ->
      exists issues,
        linkedinCollectProfilesInputSchema input = ParseError issues
        /\ {| issue_path := [Key (lit "urls")];
              issue_message :=
                Some (lit "Provide at least one LinkedIn profile URL") |}
           ∈ issues)
  /\ (forall i url,
        linkedin_urls input !! i = Some url -> zodUrl url = None ->
        exists issues,
          linkedinCollectProfilesInputSchema input = ParseError issues
          /\ {| issue_path := [Key (lit "urls"); Index i];
                issue_message := None |} ∈ issues).
Proof.
  unfold linkedinCollectProfilesInputSchema. split; [|split; [|split]].
  - split.
    + intros [data H]. apply finish_ParseOk in H as [H _].
      apply app_nil_iff in H as [Hu Hn].
      apply elementIssues_nil in Hu. apply check_nil in Hn.
      split; [|done]. by destruct (linkedin_urls input).
    + intros [Hn Hu]. apply (elementIssues_nil 0) in Hu. rewrite Hu.
      destruct (linkedin_urls input); [done|]. by eexists.
  - intros data H. apply finish_ParseOk in H as [H ->]. simpl.
    apply app_nil_iff in H as [Hu _]. apply elementIssues_nil in Hu.
    split; [by apply afterUrlCheck_handed_on|].
    by destruct (linkedin_format input).
  - intros ->. eexists. split.
    + by apply finish_ParseError.
    + apply elem_of_cons. by left.
  - intros i url Hi Hurl.
    pose proof (elementIssues_elem 0 i _ _ Hi Hurl) as Hin.
    eexists. split.
    + apply finish_ParseError. intros [H _]%app_eq_nil.
      rewrite H in Hin. by apply elem_of_nil in Hin.
    + apply elem_of_app. by left.
Qed.

(** X15. The defaults of the schemas and of [execute] agree. Parsing what
    the search schema produced gives it back, and [execute] does the
    same on the parsed data as on the input before parsing. For
    linkedinCollectProfiles, [execute] on the parsed data does what it
    does on the parsed URLs with the format as it was given. *)
Theorem schema_defaults_stable (client : bdclient) (tr : list Event) :
  (forall input data,
     searchInputSchema input = ParseOk data ->
     searchInputSchema data = ParseOk data
     /\ searchExecute client data tr = searchExecute client input tr)
  /\ (forall input data,
        linkedinCollectProfilesInputSchema input = ParseOk data ->
        linkedinCollectProfilesExecute client data tr
        = linkedinCollectProfilesExecute client
            {| linkedin_urls := linkedin_urls data;
               linkedin_format := linkedin_format input |} tr).
Proof.
  split; intros input data H.
  - unfold searchInputSchema in *.
    apply finish_ParseOk in H as [Hi ->]. split.
    + apply finish_ParseOk. split; [exact Hi|]. simpl.
      by destruct (search_searchEngine input), (search_dataFormat input).
    + unfold searchExecute. simpl.
      by destruct (search_searchEngine input), (search_dataFormat input).
  - unfold linkedinCollectProfilesInputSchema in *.
    apply finish_ParseOk in H as [Hi ->].
    unfold linkedinCollectProfilesExecute. simpl.
    by destruct (linkedin_format input).
Qed.

(** ** Keys at any depth *)

Lemma member_includes_value (gap key strP : jsstring) :
  includes (member gap key strP) strP = true.
Proof. unfold member. do 3 apply includes_app_r. apply (includes_end []). Qed.

Lemma keyOccurs_serialized (key : jsstring) (value : JsValue) :
  keyOccurs key value ->
  forall gap indent,
  exists text,
    SerializeJSONProperty gap indent value = Some text
    /\ includes text (QuoteJSONString key) = true.
Proof.
  induction 1 as [ps v Hin Hv | ps k v Hin _ IH | es e Hin _ IH];
    intros gap indent.
  - destruct (SerializeJSONProperty gap (indent ++ gap) v) as [strP|] eqn:Hs;
      [|by apply SerializeJSONProperty_None in Hs].
    eexists. split; [reflexivity|].
    eapply includes_trans; [|apply (member_includes_key gap key strP)].
    apply wrapPartial_includes. by eapply members_elem.
  - destruct (IH gap (indent ++ gap)) as (strP & Hs & Hinc).
    eexists. split; [reflexivity|].
    eapply includes_trans; [|exact Hinc].
    eapply includes_trans; [|apply (member_includes_value gap k strP)].
    apply wrapPartial_includes. by eapply members_elem.
  - destruct (IH gap (indent ++ gap)) as (strP & Hs & Hinc).
    eexists. split; [reflexivity|].
    eapply includes_trans; [|exact Hinc].
    apply wrapPartial_includes. apply list_elem_of_In, in_map_iff.
    exists e. split; [|by apply list_elem_of_In].
    change (match SerializeJSONProperty gap (indent ++ gap) e with
            | Some s => s
            | None => lit "null"
            end = strP).
    by rewrite Hs.
Qed.

(** X16. The text [normalizeDatasetResult] gives for a structured result
    has, in quoted form, every key that occurs in it at any depth, in
    nested objects and in the elements of arrays, provided the value under
    the key is not [undefined]; a key without characters that need
    escaping appears in it as it is. *)
Theorem normalizeDatasetResult_nested_keys (key : jsstring)
    (result : JsValue) :
  keyOccurs key result ->
  exists text,
    normalizeDatasetResult result = JsString text
    /\ includes text (QuoteJSONString key) = true
    /\ (plainKey key = true -> includes text key = true).
Proof.
  intros Hocc.
  destruct (keyOccurs_serialized _ _ Hocc [32; 32] []) as (text & Hs & Hinc).
  exists text. split; [|split; [exact Hinc|]].
  - unfold normalizeDatasetResult, JSON_stringify_2. rewrite Hs.
    by destruct Hocc.
  - intros Hplain. eapply includes_trans; [exact Hinc|].
    rewrite QuoteJSONString_plain by done. apply includes_middle.
Qed.

End Provider.

(** ** The properties at concrete inputs *)

(** A key with white space around it and [scrape] excluded: the registry
    has no entry for scrape, and the tools of their names for the other
    three identifiers. *)
Lemma brightDataTools_exclusions_witness :
  let key := lit "  bd-key-0123456789 " in
  trim key <> []
  /\ exampleNewClient
       {| opt_apiKey := trim key; opt_autoCreateZones := true |}
     = Ok (constantClient (Ok (JsString (lit "# Example"))))
  /\ exists tools tr',
       brightDataTools
         asciiToLowerCase exampleZodUrl exampleSize exampleNewClient
         {| apiKey := Some key; excludeTools := Some [scrape] |} []
       = (Ok tools, tr')
       /\ tools !! scrape = None
       /\ id <$> tools !! search = Some (lit "search")
       /\ id <$> tools !! amazonProduct = Some (lit "amazonProduct")
       /\ id <$> tools !! linkedinCollectProfiles
          = Some (lit "linkedinCollectProfiles").
Proof.
  cbv zeta.
  assert (trim (lit "  bd-key-0123456789 ") <> []) as H
    by (vm_compute; discriminate).
  assert (forall t, t <> scrape -> ~ excludedBy (Some [scrape]) t) as Hne.
  { intros t Ht Hin. simpl in Hin. apply elem_of_cons in Hin as [->|Hin];
      [done | by apply elem_of_nil in Hin]. }
  split; [exact H|]. split; [reflexivity|].
  destruct (brightDataTools_exclusions
    asciiToLowerCase exampleZodUrl exampleSize exampleNewClient
              (lit "  bd-key-0123456789 ") (Some [scrape]) [] _ H eq_refl)
    as (tools & tr' & Hrun & Ht).
  exists tools, tr'. split; [exact Hrun|].
  split; [apply (Ht scrape); simpl; apply elem_of_cons; by left|].
  split; [|split].
  - destruct (proj2 (Ht search) (Hne search ltac:(discriminate)))
      as (tool & -> & Hid). simpl. by rewrite Hid.
  - destruct (proj2 (Ht amazonProduct) (Hne amazonProduct ltac:(discriminate)))
      as (tool & -> & Hid). simpl. by rewrite Hid.
  - destruct (proj2 (Ht linkedinCollectProfiles)
                (Hne linkedinCollectProfiles ltac:(discriminate)))
      as (tool & -> & Hid). simpl. by rewrite Hid.
Defined.

(** A key the constructor refuses: what it throws is what
    [brightDataTools] throws, after the one call of the constructor. *)
Example brightDataTools_constructor_throws :
  brightDataTools asciiToLowerCase exampleZodUrl exampleSize exampleNewClient
    {| apiKey := Some [32; 107; 9]; excludeTools := None |} []
  = (Throw (ErrorInstance
              (lit "API key must be at least 10 characters long")),
     [NewClient {| opt_apiKey := [107]; opt_autoCreateZones := true |}]).
Proof. reflexivity. Qed.

Example brightDataTools_trims_the_key :
  snd (brightDataTools
    asciiToLowerCase exampleZodUrl exampleSize exampleNewClient
         {| apiKey := Some (lit "  bd-key-0123456789 ");
            excludeTools := Some [scrape] |} [])
  = [NewClient {| opt_apiKey := lit "bd-key-0123456789";
                  opt_autoCreateZones := true |}].
Proof. reflexivity. Qed.

(** A credential of a space, a tab and a no-break space. *)
Lemma brightDataTools_blank_credential_witness :
  isBlank (Some [32; 9; 160]) = true
  /\ brightDataTools asciiToLowerCase exampleZodUrl exampleSize exampleNewClient
       {| apiKey := Some [32; 9; 160]; excludeTools := None |} []
     = (Throw (ErrorInstance apiKeyRequired), [])
  /\ includes apiKeyRequired (lit "API key is required") = true.
Proof.
  split; [reflexivity|].
  exact (brightDataTools_blank_credential
    asciiToLowerCase exampleZodUrl exampleSize
           exampleNewClient
           {| apiKey := Some [32; 9; 160]; excludeTools := None |} []
           eq_refl).
Defined.

(** A registry without [search] and [scrape]: the message names both. *)
Lemma assembleAgent_completeness_witness :
  let client := constantClient (Ok JsNull) in
  let registry : gmap BrightDataToolId ToolInstance :=
    <[amazonProduct := createAmazonProductTool exampleZodUrl client]>
      (<[linkedinCollectProfiles :=
           createLinkedinCollectProfilesTool exampleZodUrl client]> ∅) in
  let message :=
    lit "Bright Data tools failed to initialize (search, scrape). Verify BRIGHTDATA_API_KEY." in
  assembleAgent registry [] = (Throw (ErrorInstance message), [])
  /\ forall t, registry !! t = None -> includes message (toolName t) = true.
Proof.
  exact (assembleAgent_completeness
           (<[amazonProduct :=
                createAmazonProductTool exampleZodUrl
                  (constantClient (Ok JsNull))]>
              (<[linkedinCollectProfiles :=
                   createLinkedinCollectProfilesTool exampleZodUrl
                     (constantClient (Ok JsNull))]> ∅)) []).
Defined.

(** The module with a usable key, and the agent it builds. *)
Lemma webAgent_completeness_unreachable_witness :
  isBlank (Some (lit "bd-key-0123456789")) = false
  /\ exampleNewClient
       {| opt_apiKey := trim (lit "bd-key-0123456789");
          opt_autoCreateZones := true |}
     = Ok (constantClient (Ok (JsString (lit "# Example"))))
  /\ exists agent tr',
       webAgent asciiToLowerCase exampleZodUrl exampleSize exampleNewClient
         (Some (lit "bd-key-0123456789")) []
       = (Ok agent, tr')
       /\ forall tool, tool ∈ [searchTool; scrapeTool; amazonProductTool;
                               linkedinCollectProfilesTool] ->
                       is_Some (tool (agent_tools agent)).
Proof.
  split; [reflexivity|]. split; [reflexivity|].
  exact (proj2 (proj2 (webAgent_completeness_unreachable
                         asciiToLowerCase exampleZodUrl exampleSize
                           exampleNewClient
                         (Some (lit "bd-key-0123456789")) []))
           _ eq_refl eq_refl).
Defined.

(** With a key the constructor refuses, the module throws what the
    constructor threw. *)
Example webAgent_constructor_throws :
  fst (webAgent asciiToLowerCase exampleZodUrl exampleSize exampleNewClient (Some (lit "short")) [])
  = Throw (ErrorInstance (lit "API key must be at least 10 characters long")).
Proof. reflexivity. Qed.

(** Without the environment variable the module stops at the
    configuration error. *)
Example webAgent_without_key :
  webAgent asciiToLowerCase exampleZodUrl exampleSize exampleNewClient None []
  = (Throw (ErrorInstance apiKeyRequired), []).
Proof. reflexivity. Qed.

(** A scrape of [https://example.com] whose provider call fails. *)
Lemma provider_failure_message_witness :
  let client := constantClient (Throw (ErrorInstance (lit "socket hang up"))) in
  let context :=
    {| scrape_url := lit "https://example.com"; scrape_country := None |} in
  client_scrape client (scrape_url context)
    (scrapeOptions asciiToLowerCase (scrape_country context))
  = Throw (ErrorInstance (lit "socket hang up"))
  /\ exists message,
       fst (scrapeExecute asciiToLowerCase client context [])
       = Throw (ErrorInstance message)
       /\ includes message (operationName scrape) = true
       /\ includes message (lit "https://example.com") = true
       /\ includes message (lit "socket hang up") = true.
Proof.
  split; [reflexivity|].
  exact (proj1 (provider_failure_message asciiToLowerCase
                  (constantClient
                     (Throw (ErrorInstance (lit "socket hang up"))))
                  (ErrorInstance (lit "socket hang up")) [])
           {| scrape_url := lit "https://example.com";
              scrape_country := None |} eq_refl).
Defined.

(** A thrown value that is not an [Error] is put in as a string. *)
Example searchExecute_non_error_failure :
  fst (searchExecute asciiToLowerCase
         (constantClient (Throw (NonError (JsNumber (lit "503")))))
         {| search_query := lit "quantum computing";
            search_searchEngine := None; search_country := None;
            search_dataFormat := None |} [])
  = Throw (ErrorInstance
             (lit "Bright Data search failed for " ++ dquote
              ++ lit "quantum computing" ++ dquote ++ lit ": 503")).
Proof. reflexivity. Qed.

(** C4 as stated fails for linkedinCollectProfiles: the message of a
    failed collection does not have the URL of the request. *)
Lemma linkedin_failure_message_omits_urls :
  let client := constantClient (Throw (ErrorInstance (lit "socket hang up"))) in
  let url := lit "https://www.linkedin.com/in/example" in
  let message :=
    lit "Bright Data LinkedIn profile collection failed: socket hang up" in
  linkedinCollectProfilesExecute client
    {| linkedin_urls := [url]; linkedin_format := None |} []
  = (Throw (ErrorInstance message),
     [CallCollectProfiles [url]
        {| collect_format := json; collect_async := false |}])
  /\ includes message url = false.
Proof. split; reflexivity. Qed.

(** A dataset result that is an object, and a page that is a string. *)
Lemma successful_call_result_witness :
  let result :=
    JsObject [(lit "title", JsString (lit "Kettle"));
              (lit "price", JsNumber (lit "24.99"))] in
  let client := constantClient (Ok result) in
  let context :=
    {| amazon_url := lit "https://www.amazon.com/dp/B000000000";
       amazon_zipcode := None |} in
  fst (amazonProductExecute client context [])
  = Ok (normalizeDatasetResult result)
  /\ exists text,
       JSON_stringify_2 result = Some text
       /\ normalizeDatasetResult result = JsString text
       /\ forall properties key v,
            result = JsObject properties -> (key, v) ∈ properties ->
            v <> JsUndefined ->
            includes text (QuoteJSONString key) = true
            /\ (plainKey key = true -> includes text key = true).
Proof.
  pose proof (successful_call_result asciiToLowerCase
    (constantClient
       (Ok (JsObject [(lit "title", JsString (lit "Kettle"));
                      (lit "price", JsNumber (lit "24.99"))])))
    (JsObject [(lit "title", JsString (lit "Kettle"));
               (lit "price", JsNumber (lit "24.99"))]) [])
    as (_ & _ & Hamazon & _ & _ & Hjson).
  split.
  - exact (Hamazon _
             {| amazon_url := lit "https://www.amazon.com/dp/B000000000";
                amazon_zipcode := None |} eq_refl eq_refl).
  - apply Hjson; [reflexivity | discriminate].
Defined.

(** The text [JSON.stringify(result, null, 2)] gives for that object:
    members on lines of their own, indented by two spaces. *)
Example JSON_stringify_2_object :
  JSON_stringify_2
    (JsObject [(lit "title", JsString (lit "Kettle"));
               (lit "price", JsNumber (lit "24.99"))])
  = Some (lit "{" ++ [10] ++ lit "  " ++ dquote ++ lit "title" ++ dquote
          ++ lit ": " ++ dquote ++ lit "Kettle" ++ dquote ++ lit ","
          ++ [10] ++ lit "  " ++ dquote ++ lit "price" ++ dquote
          ++ lit ": 24.99" ++ [10] ++ lit "}").
Proof. reflexivity. Qed.

(** C5 as stated fails for scrape and search: a provider result that is
    not a string comes back as it is, not as a string. It also fails at
    [undefined]: a dataset result that is [undefined] stays [undefined],
    and a key whose value is [undefined] is left out of the text. *)
Lemma scrape_result_not_normalized :
  let result := JsObject [(lit "status", JsNumber (lit "200"))] in
  let scrapeContext :=
    {| scrape_url := lit "https://example.com"; scrape_country := None |} in
  let searchContext :=
    {| search_query := lit "quantum computing"; search_searchEngine := None;
       search_country := None; search_dataFormat := None |} in
  let amazonContext :=
    {| amazon_url := lit "https://www.amazon.com/dp/B000000000";
       amazon_zipcode := None |} in
  fst (scrapeExecute asciiToLowerCase (constantClient (Ok result))
         scrapeContext []) = Ok result
  /\ fst (searchExecute asciiToLowerCase (constantClient (Ok result))
            searchContext []) = Ok result
  /\ typeof_string result = false
  /\ (exists text, JSON_stringify_2 result = Some text
                   /\ Ok result <> Ok (JsString text))
  /\ fst (amazonProductExecute (constantClient (Ok JsUndefined))
            amazonContext []) = Ok JsUndefined
  /\ fst (amazonProductExecute
            (constantClient (Ok (JsObject [(lit "note", JsUndefined)])))
            amazonContext []) = Ok (JsString (lit "{}")).
Proof.
  cbv zeta. repeat split; try reflexivity.
  eexists. split; [reflexivity | discriminate].
Qed.

(** A query with an upper-case country code and nothing else. *)
Lemma searchExecute_dispatch_witness :
  let context :=
    {| search_query := lit "quantum computing"; search_searchEngine := None;
       search_country := Some (lit "US"); search_dataFormat := None |} in
  exists options,
    snd (searchExecute asciiToLowerCase (constantClient (Ok (JsString [])))
           context [])
    = [CallSearch (lit "quantum computing") options]
    /\ opt_searchEngine options = Some google
    /\ opt_dataFormat options = markdown
    /\ opt_format options = lit "raw"
    /\ opt_country options = Some (lit "us").
Proof.
  exact (proj1 (searchExecute_dispatch asciiToLowerCase exampleSize
                  (constantClient (Ok (JsString [])))
                  {| search_query := lit "quantum computing";
                     search_searchEngine := None;
                     search_country := Some (lit "US");
                     search_dataFormat := None |} [])).
Defined.

Example searchInputSchema_defaults :
  searchInputSchema exampleSize
    {| search_query := lit "quantum computing"; search_searchEngine := None;
       search_country := None; search_dataFormat := None |}
  = ParseOk
      {| search_query := lit "quantum computing";
         search_searchEngine := Some google; search_country := None;
         search_dataFormat := Some markdown |}.
Proof. reflexivity. Qed.

(** A zip code with white space around it is sent as [10001]; a zip code
    of spaces only is left out. *)
Lemma amazonProductExecute_request_witness :
  let client := constantClient (Ok JsNull) in
  let url := lit "https://www.amazon.com/dp/B000000000" in
  let context := {| amazon_url := url; amazon_zipcode := Some (lit " 10001 ") |} in
  let blank := {| amazon_url := url; amazon_zipcode := Some (lit "   ") |} in
  let options := {| collect_format := json; collect_async := false |} in
  datasets client ≫= amazon
  = Some {| collectProducts := fun _ _ => Ok JsNull |}
  /\ (exists element,
        snd (amazonProductExecute client context [])
        = [] ++ [CallCollectProducts [element] options]
        /\ req_url element = url
        /\ (amazon_zipcode context = None -> req_zipcode element = None)
        /\ (forall zipcode,
              amazon_zipcode context = Some zipcode ->
              forallb isWhiteSpace zipcode = true ->
              req_zipcode element = None)
        /\ (forall zipcode,
              amazon_zipcode context = Some zipcode ->
              forallb isWhiteSpace zipcode = false ->
              exists z,
                req_zipcode element = Some z /\ z <> []
                /\ isTrimmed z zipcode))
  /\ snd (amazonProductExecute client context [])
     = [CallCollectProducts
          [{| req_url := url; req_zipcode := Some (lit "10001") |}] options]
  /\ snd (amazonProductExecute client blank [])
     = [CallCollectProducts
          [{| req_url := url; req_zipcode := None |}] options].
Proof.
  split; [reflexivity|]. split; [|split; reflexivity].
  exact (amazonProductExecute_request (constantClient (Ok JsNull)) _
           {| amazon_url := lit "https://www.amazon.com/dp/B000000000";
              amazon_zipcode := Some (lit " 10001 ") |} [] eq_refl).
Defined.

Example amazonRequest_trims_the_zip_code :
  amazonRequest (lit "https://www.amazon.com/dp/B000000000")
    (Some (lit " 10001 "))
  = [{| req_url := lit "https://www.amazon.com/dp/B000000000";
        req_zipcode := Some (lit "10001") |}].
Proof. reflexivity. Qed.

Example amazonRequest_drops_a_blank_zip_code :
  amazonRequest (lit "https://www.amazon.com/dp/B000000000")
    (Some (lit "   "))
  = [{| req_url := lit "https://www.amazon.com/dp/B000000000";
        req_zipcode := None |}].
Proof. reflexivity. Qed.

(** A client with no [datasets], and one with [datasets] but neither
    dataset. *)
Lemma dataset_unavailable_witness :
  let context :=
    {| amazon_url := lit "https://www.amazon.com/dp/B000000000";
       amazon_zipcode := None |} in
  let profiles :=
    {| linkedin_urls := [lit "https://www.linkedin.com/in/example"];
       linkedin_format := None |} in
  datasets (clientWithoutDatasets (Ok JsNull)) ≫= amazon = None
  /\ datasets (clientWithoutDatasets (Ok JsNull)) ≫= linkedin = None
  /\ amazonProductExecute (clientWithoutDatasets (Ok JsNull)) context []
     = (Throw (ErrorInstance amazonUnavailable), [])
  /\ linkedinCollectProfilesExecute (clientWithoutDatasets (Ok JsNull))
       profiles []
     = (Throw (ErrorInstance linkedinUnavailable), []).
Proof.
  pose proof (dataset_unavailable (clientWithoutDatasets (Ok JsNull)) [])
    as (Hamazon & Hlinkedin & _).
  split; [reflexivity|]. split; [reflexivity|].
  split; [exact (Hamazon eq_refl _) | exact (Hlinkedin eq_refl _)].
Defined.

Example amazonProductExecute_empty_datasets :
  amazonProductExecute (clientWithEmptyDatasets (Ok JsNull))
    {| amazon_url := lit "https://www.amazon.com/dp/B000000000";
       amazon_zipcode := None |} []
  = (Throw (ErrorInstance amazonUnavailable), []).
Proof. reflexivity. Qed.

(** A valid URL with neither segment. *)
Lemma amazonProductInputSchema_url_witness :
  let input :=
    {| amazon_url := lit "https://amazon.com/some/other/path";
       amazon_zipcode := None |} in
  exampleZodUrl (amazon_url input) = Some (amazon_url input)
  /\ includes (amazon_url input) (lit "/dp/") = false
  /\ includes (amazon_url input) (lit "/gp/product/") = false
  /\ exists issues,
       invoke (createAmazonProductTool exampleZodUrl
                 (constantClient (Ok JsNull))) input []
       = (ParseError issues, [])
       /\ {| issue_path := [Key (lit "url")];
             issue_message :=
               Some (lit "URL must contain /dp/ or /gp/product/") |}
          ∈ issues.
Proof.
  split; [reflexivity|]. split; [reflexivity|]. split; [reflexivity|].
  exact (proj2 (proj2 (amazonProductInputSchema_url exampleZodUrl
                         {| amazon_url :=
                              lit "https://amazon.com/some/other/path";
                            amazon_zipcode := None |}))
           _ eq_refl eq_refl eq_refl (constantClient (Ok JsNull)) []).
Defined.

(** A product URL with white space around it is accepted, and handed on
    as the URL check returned it. *)
Example amazonProductInputSchema_accepts_a_product_url :
  amazonProductInputSchema exampleZodUrl
    {| amazon_url := lit " https://www.amazon.com/gp/product/B000000000 ";
       amazon_zipcode := None |}
  = ParseOk
      {| amazon_url := lit "https://www.amazon.com/gp/product/B000000000";
         amazon_zipcode := None |}.
Proof. reflexivity. Qed.

(** C9 as stated fails: the pattern is tested on the whole url, so a
    valid URL with [/dp/] in its query and not in its path is accepted. *)
Lemma amazon_url_outside_path_accepted :
  let url := lit "https://www.amazon.com/s?k=/dp/" in
  let input := {| amazon_url := url; amazon_zipcode := None |} in
  exampleZodUrl url = Some url
  /\ urlPath url = lit "/s"
  /\ regex_test productPathPattern (urlPath url) = false
  /\ amazonProductInputSchema exampleZodUrl input = ParseOk input
  /\ ~ ((exists data,
           amazonProductInputSchema exampleZodUrl input = ParseOk data)
        <-> isSome (exampleZodUrl url) = true
            /\ regex_test productPathPattern (urlPath url) = true).
Proof.
  cbv zeta. split; [reflexivity|]. split; [reflexivity|].
  split; [reflexivity|]. split; [reflexivity|].
  intros [H _]. destruct H as [_ H]; [by eexists|].
  vm_compute in H. discriminate H.
Qed.

(** ** The further properties at concrete inputs *)

(** Every tool excluded: the constructor is called all the same. *)
Lemma brightDataTools_single_client_witness :
  let key := lit " bd-key-0123456789" in
  let options :=
    {| opt_apiKey := trim key; opt_autoCreateZones := true |} in
  trim key <> []
  /\ (exists tools,
        brightDataTools
          asciiToLowerCase exampleZodUrl exampleSize exampleNewClient
          {| apiKey := Some key;
             excludeTools :=
               Some [scrape; search; amazonProduct;
                     linkedinCollectProfiles] |} []
        = (Ok tools, [] ++ [NewClient options])
        /\ forall t tool,
             tools !! t = Some tool ->
             tool
             = createToolFor asciiToLowerCase exampleZodUrl exampleSize t
                 (constantClient (Ok (JsString (lit "# Example")))))
  /\ (forall c, head (trim key) = Some c -> isWhiteSpace c = false)
  /\ (forall c, last (trim key) = Some c -> isWhiteSpace c = false).
Proof.
  cbv zeta.
  assert (trim (lit " bd-key-0123456789") <> []) as H
    by (vm_compute; discriminate).
  split; [exact H|].
  exact (brightDataTools_single_client
    asciiToLowerCase exampleZodUrl exampleSize exampleNewClient _
           (Some [scrape; search; amazonProduct; linkedinCollectProfiles])
           [] H).
Defined.

(** A key with white space on both sides that the constructor takes. *)
Lemma brightDataTools_succeeds_iff_witness :
  exists tools tr',
    brightDataTools asciiToLowerCase exampleZodUrl exampleSize exampleNewClient
      {| apiKey := Some ([32] ++ lit "bd-key-0123456789" ++ [9]);
         excludeTools := None |} []
    = (Ok tools, tr').
Proof.
  apply (proj1 (brightDataTools_succeeds_iff
    asciiToLowerCase exampleZodUrl exampleSize exampleNewClient
                  {| apiKey := Some ([32] ++ lit "bd-key-0123456789" ++ [9]);
                     excludeTools := None |} [])).
  exists ([32] ++ lit "bd-key-0123456789" ++ [9]),
    (constantClient (Ok (JsString (lit "# Example")))).
  split; [reflexivity|]. split; reflexivity.
Defined.

(** The same two exclusions, once repeated and in the other order. *)
Lemma brightDataTools_exclusion_set_witness :
  (forall t, t ∈ [search; scrape; search] <-> t ∈ [scrape; search])
  /\ brightDataTools asciiToLowerCase exampleZodUrl exampleSize exampleNewClient
       {| apiKey := Some (lit "bd-key-0123456789");
          excludeTools := Some [search; scrape; search] |} []
     = brightDataTools
       asciiToLowerCase exampleZodUrl exampleSize exampleNewClient
         {| apiKey := Some (lit "bd-key-0123456789");
            excludeTools := Some [scrape; search] |} [].
Proof.
  assert (forall t, t ∈ [search; scrape; search] <-> t ∈ [scrape; search])
    as H.
  { intros t. rewrite !elem_of_cons, !elem_of_nil. tauto. }
  split; [exact H|].
  exact (brightDataTools_exclusion_set
    asciiToLowerCase exampleZodUrl exampleSize
           exampleNewClient (Some (lit "bd-key-0123456789"))
           [search; scrape; search] [scrape; search] [] H).
Defined.

(** [linkedinCollectProfiles] and [search] excluded, in that order: the
    message lists search first. *)
Lemma brightDataTools_then_assembleAgent_witness :
  let config :=
    {| apiKey := Some (lit "bd-key-0123456789");
       excludeTools := Some [linkedinCollectProfiles; search] |} in
  let run :=
    brightDataTools
      asciiToLowerCase exampleZodUrl exampleSize exampleNewClient config
      [] in
  exists tools tr',
    run = (Ok tools, tr')
    /\ assembleAgent tools tr'
       = (Throw (ErrorInstance
                   (lit "Bright Data tools failed to initialize (search, linkedinCollectProfiles). Verify BRIGHTDATA_API_KEY.")),
          tr').
Proof.
  cbv zeta.
  assert (trim (lit "bd-key-0123456789") <> []) as Hkey
    by (vm_compute; discriminate).
  pose proof (brightDataTools_run_ok
                asciiToLowerCase exampleZodUrl exampleSize exampleNewClient
                (lit "bd-key-0123456789")
                (Some [linkedinCollectProfiles; search]) [] _ Hkey eq_refl)
    as Hrun.
  cbv zeta in Hrun.
  eexists _, _. split; [exact Hrun|].
  refine (proj2 (brightDataTools_then_assembleAgent
                   asciiToLowerCase exampleZodUrl exampleSize
                   exampleNewClient (lit "bd-key-0123456789")
                   (Some [linkedinCollectProfiles; search]) [] _ _ Hrun) _).
  vm_compute. discriminate.
Defined.

(** The module with a key that has a line break after it. *)
Lemma webAgent_wiring_witness :
  exists agent tr',
    webAgent asciiToLowerCase exampleZodUrl exampleSize exampleNewClient
      (Some (lit "bd-key-0123456789" ++ [10])) []
    = (Ok agent, tr')
    /\ tr' = [NewClient {| opt_apiKey := lit "bd-key-0123456789";
                           opt_autoCreateZones := true |}]
    /\ id <$> searchTool (agent_tools agent) = Some (lit "search")
    /\ id <$> scrapeTool (agent_tools agent) = Some (lit "scrape").
Proof.
  eexists _, _. split; [reflexivity|].
  destruct (webAgent_wiring
    asciiToLowerCase exampleZodUrl exampleSize exampleNewClient
              (Some (lit "bd-key-0123456789" ++ [10])) [] _ _ eq_refl)
    as (client & _ & Htr & Hsearch & Hscrape & _).
  split; [exact Htr|]. split.
  - exact (f_equal (fmap id) Hsearch).
  - exact (f_equal (fmap id) Hscrape).
Defined.

(** A scrape with an upper-case country code, failing at the provider. *)
Lemma scrapeExecute_dispatch_witness :
  snd (scrapeExecute asciiToLowerCase
         (constantClient (Throw (ErrorInstance (lit "socket hang up"))))
         {| scrape_url := lit "https://example.com";
            scrape_country := Some (lit "GB") |} [])
  = [CallScrape (lit "https://example.com")
       {| opt_searchEngine := None; opt_dataFormat := markdown;
          opt_format := lit "raw"; opt_country := Some (lit "gb") |}].
Proof.
  exact (scrapeExecute_dispatch asciiToLowerCase
           (constantClient (Throw (ErrorInstance (lit "socket hang up"))))
           {| scrape_url := lit "https://example.com";
              scrape_country := Some (lit "GB") |} []).
Defined.

(** Two profiles, asked for as jsonl. *)
Lemma linkedinCollectProfilesExecute_dispatch_witness :
  let urls :=
    [lit "https://www.linkedin.com/in/b"; lit "https://www.linkedin.com/in/a"]
  in
  datasets (constantClient (Ok JsNull)) ≫= linkedin
  = Some {| collectProfiles := fun _ _ => Ok JsNull |}
  /\ snd (linkedinCollectProfilesExecute (constantClient (Ok JsNull))
            {| linkedin_urls := urls; linkedin_format := Some jsonl |} [])
     = [CallCollectProfiles urls
          {| collect_format := jsonl; collect_async := false |}].
Proof.
  split; [reflexivity|].
  exact (linkedinCollectProfilesExecute_dispatch (constantClient (Ok JsNull))
           _ {| linkedin_urls :=
                  [lit "https://www.linkedin.com/in/b";
                   lit "https://www.linkedin.com/in/a"];
                linkedin_format := Some jsonl |} [] eq_refl).
Defined.

(** The provider rejects with a bare string. *)
Lemma execute_throws_errors_witness :
  let client := constantClient (Throw (NonError (JsString (lit "quota")))) in
  let context :=
    {| search_query := lit "quantum computing"; search_searchEngine := None;
       search_country := None; search_dataFormat := None |} in
  let thrown :=
    ErrorInstance
      (lit "Bright Data search failed for " ++ dquote
       ++ lit "quantum computing" ++ dquote ++ lit ": quota") in
  fst (searchExecute asciiToLowerCase client context []) = Throw thrown
  /\ exists message,
       thrown = ErrorInstance message
       /\ startsWith message (lit "Bright Data ") = true.
Proof.
  split; [reflexivity|].
  exact (proj1 (proj2 (execute_throws_errors asciiToLowerCase
                         (constantClient
                            (Throw (NonError (JsString (lit "quota")))))
                         [] _))
           {| search_query := lit "quantum computing";
              search_searchEngine := None; search_country := None;
              search_dataFormat := None |} eq_refl).
Defined.

(** A dataset result that is a number. *)
Lemma normalizeDatasetResult_idempotent_witness :
  fst (amazonProductExecute (constantClient (Ok (JsNumber (lit "42"))))
         {| amazon_url := lit "https://www.amazon.com/dp/B000000000";
            amazon_zipcode := None |} [])
  = Ok (JsString (lit "42"))
  /\ ((exists text, JsString (lit "42") = JsString text)
      \/ JsString (lit "42") = JsUndefined).
Proof.
  split; [reflexivity|].
  exact (proj1 (proj2 (proj2 (normalizeDatasetResult_idempotent
                                (JsNumber (lit "42")))))
           (constantClient (Ok (JsNumber (lit "42"))))
           {| amazon_url := lit "https://www.amazon.com/dp/B000000000";
              amazon_zipcode := None |} [] _ eq_refl).
Defined.

(** A zip code of a tab and a space. *)
Lemma amazonProductExecute_zip_whitespace_witness :
  forallb isWhiteSpace [9; 32] = true
  /\ amazonProductExecute (constantClient (Ok JsNull))
       {| amazon_url := lit "https://www.amazon.com/dp/B000000000";
          amazon_zipcode := Some [9; 32] |} []
     = amazonProductExecute (constantClient (Ok JsNull))
         {| amazon_url := lit "https://www.amazon.com/dp/B000000000";
            amazon_zipcode := None |} [].
Proof.
  split; [reflexivity|].
  exact (proj2 (amazonProductExecute_zip_whitespace
                  (constantClient (Ok JsNull))
                  (lit "https://www.amazon.com/dp/B000000000") [9; 32] [])
           eq_refl).
Defined.

(** A string that is not a URL, and a country code of three letters. *)
Lemma scrapeInputSchema_accepts_witness :
  let input :=
    {| scrape_url := lit "not a url"; scrape_country := Some (lit "usa") |} in
  exampleZodUrl (scrape_url input) = None
  /\ exists issues,
       scrapeInputSchema exampleZodUrl exampleSize input = ParseError issues
       /\ {| issue_path := [Key (lit "url")];
             issue_message := Some (lit "A valid URL is required") |}
          ∈ issues.
Proof.
  split; [reflexivity|].
  exact (proj1 (proj2 (scrapeInputSchema_accepts exampleZodUrl exampleSize
                         {| scrape_url := lit "not a url";
                            scrape_country := Some (lit "usa") |}))
           eq_refl).
Defined.

Example scrapeInputSchema_reports_both :
  scrapeInputSchema exampleZodUrl exampleSize
    {| scrape_url := lit "not a url"; scrape_country := Some (lit "usa") |}
  = ParseError
      [{| issue_path := [Key (lit "url")];
          issue_message := Some (lit "A valid URL is required") |};
       {| issue_path := [Key (lit "country")];
          issue_message := Some (lit "Country code must be two letters") |}].
Proof. reflexivity. Qed.

(** A URL with white space around it is handed on without it. *)
Example scrapeInputSchema_hands_on_the_checked_url :
  scrapeInputSchema exampleZodUrl exampleSize
    {| scrape_url := lit " https://example.com "; scrape_country := None |}
  = ParseOk
      {| scrape_url := lit "https://example.com"; scrape_country := None |}.
Proof. reflexivity. Qed.

(** An empty list of profiles. *)
Lemma linkedinCollectProfilesInputSchema_accepts_witness :
  exists issues,
    linkedinCollectProfilesInputSchema exampleZodUrl
      {| linkedin_urls := []; linkedin_format := None |}
    = ParseError issues
    /\ {| issue_path := [Key (lit "urls")];
          issue_message :=
            Some (lit "Provide at least one LinkedIn profile URL") |}
       ∈ issues.
Proof.
  exact (proj1 (proj2 (proj2 (linkedinCollectProfilesInputSchema_accepts
                                exampleZodUrl
                                {| linkedin_urls := [];
                                   linkedin_format := None |})))
           eq_refl).
Defined.

(** The second of two profiles is not a URL: one issue, at index 1. *)
Example linkedinCollectProfilesInputSchema_reports_the_element :
  linkedinCollectProfilesInputSchema exampleZodUrl
    {| linkedin_urls := [lit "https://www.linkedin.com/in/a"; lit "b"];
       linkedin_format := None |}
  = ParseError
      [{| issue_path := [Key (lit "urls"); Index 1];
          issue_message := None |}].
Proof. reflexivity. Qed.

(** A search input with nothing but a query. *)
Lemma schema_defaults_stable_witness :
  let input :=
    {| search_query := lit "quantum computing"; search_searchEngine := None;
       search_country := None; search_dataFormat := None |} in
  let data :=
    {| search_query := lit "quantum computing";
       search_searchEngine := Some google; search_country := None;
       search_dataFormat := Some markdown |} in
  searchInputSchema exampleSize input = ParseOk data
  /\ searchInputSchema exampleSize data = ParseOk data
  /\ searchExecute asciiToLowerCase (constantClient (Ok JsNull)) data []
     = searchExecute asciiToLowerCase (constantClient (Ok JsNull)) input [].
Proof.
  split; [reflexivity|].
  exact (proj1 (schema_defaults_stable asciiToLowerCase exampleZodUrl
                  exampleSize (constantClient (Ok JsNull)) [])
           {| search_query := lit "quantum computing";
              search_searchEngine := None; search_country := None;
              search_dataFormat := None |} _ eq_refl).
Defined.

(** A list of products, as the Amazon dataset returns them: the key of a
    property of an object inside an element. *)
Lemma normalizeDatasetResult_nested_keys_witness :
  let result :=
    JsArray
      [JsObject
         [(lit "title", JsString (lit "Kettle"));
          (lit "seller", JsObject [(lit "rating", JsNumber (lit "4.7"))])]]
  in
  keyOccurs (lit "rating") result
  /\ exists text,
       normalizeDatasetResult result = JsString text
       /\ includes text (QuoteJSONString (lit "rating")) = true
       /\ (plainKey (lit "rating") = true ->
           includes text (lit "rating") = true).
Proof.
  assert (keyOccurs (lit "rating")
            (JsArray
               [JsObject
                  [(lit "title", JsString (lit "Kettle"));
                   (lit "seller",
                    JsObject [(lit "rating", JsNumber (lit "4.7"))])]]))
    as H.
  { eapply occurs_in_element; [apply elem_of_cons; by left|].
    eapply occurs_in_property.
    - apply elem_of_cons. right. apply elem_of_cons. by left.
    - eapply occurs_here; [apply elem_of_cons; by left | discriminate]. }
  split; [exact H|].
  exact (normalizeDatasetResult_nested_keys _ _ H).
Defined.
